(** * Container health-check engine (pkg/healthcheck)

    A shallow embedding of [ExecuteHealthCheck], [probeHealthCheck],
    [updateHealthStatus] and [prepareProcessSpec], together with the
    properties of the health state machine, the probe executor and the
    entry point.

    The Go code talks to containerd, to the container's labels, to the
    health log file and to systemd.  These collaborators are modelled by
    explicit state passing: a [World] holds everything the code can
    mutate, and a [Tick] holds what the collaborators answer during one
    invocation (one scheduler tick).  Calls to the logger have no effect
    on either and are left out. *)

From Stdlib Require Import ZArith List String Bool Lia.
Import ListNotations.

Local Open Scope string_scope.
Local Open Scope Z_scope.

(** ** Errors *)

(** Go [error] values.  [ErrorNew] is an error made from a message alone
    ([fmt.Errorf] without [%w], or an error handed over by a
    collaborator); [ErrorWrap p c] is [fmt.Errorf (p ++ "%w", c)]. *)
Inductive error : Type :=
| ErrorNew (msg : string)
| ErrorWrap (prefix : string) (cause : error).

(** The [Error()] method: the text of the whole chain. *)
Fixpoint Error (e : error) : string :=
  match e with
  | ErrorNew msg => msg
  | ErrorWrap prefix cause => prefix ++ Error cause
  end.

(** [errors.Unwrap]. *)
Definition Unwrap (e : error) : option error :=
  match e with
  | ErrorNew _ => None
  | ErrorWrap _ cause => Some cause
  end.

(** What a call that may also panic produces. *)
Inductive outcome (A : Type) : Type :=
| Ok (a : A)
| Err (e : error)
| Panic (msg : string).
Arguments Ok {A} a.
Arguments Err {A} e.
Arguments Panic {A} msg.

(** ** Machine integers and time *)

(** Go's [int] and [time.Duration] on linux/amd64 and linux/arm64:
    64-bit two's complement. *)
Definition minInt64 : Z := - 2 ^ 63.
Definition maxInt64 : Z := 2 ^ 63 - 1.

Definition wrap64 (z : Z) : Z := (z + 2 ^ 63) mod 2 ^ 64 - 2 ^ 63.

(** A [time.Time] as nanoseconds since the Unix epoch. *)
Definition Time : Type := Z.

(** The zero [time.Time] (January 1, year 1, 00:00 UTC). *)
Definition zeroTime : Time := -62135596800 * 10 ^ 9.

(** [t.Sub(u)]: the difference as a [Duration], saturating at the
    smallest and largest [Duration]. *)
Definition Sub (t u : Time) : Z :=
  let d := t - u in
  if d <? minInt64 then minInt64
  else if maxInt64 <? d then maxInt64
  else d.

(** ** Data model *)

(** Modelled from the spec: the health status is declared in another
    file of the package; the spec has
    [Status ∈ {Starting, Healthy, Unhealthy}]. *)
Inductive HealthStatus : Type := Starting | Healthy | Unhealthy.

Definition HealthStatus_eqb (a b : HealthStatus) : bool :=
  match a, b with
  | Starting, Starting | Healthy, Healthy | Unhealthy, Unhealthy => true
  | _, _ => false
  end.

(** Modelled from the spec: [HealthState], [HealthcheckResult] and
    [Healthcheck] are declared in another file of the package; the
    fields are the ones of the spec's data model, which
    [updateHealthStatus], [probeHealthCheck] and [prepareProcessSpec]
    read and write.  [End_] stands for the field [End]. *)
Record HealthState : Type := mkHealthState {
  Status : HealthStatus;
  FailingStreak : Z
}.

Record HealthcheckResult : Type := mkHealthcheckResult {
  Start : Time;
  End_ : Time;
  ExitCode : Z;
  Output : string
}.

Record Healthcheck : Type := mkHealthcheck {
  Test : list string;
  Interval : Z;
  Timeout : Z;
  StartPeriod : Z;
  StartInterval : Z;
  Retries : Z
}.

(** [specs.User] and the fields of [specs.Process] that
    [prepareProcessSpec] fills in. *)
Record User : Type := mkUser {
  UID : Z;
  GID : Z;
  AdditionalGids : list Z;
  Username : string
}.

Record Process : Type := mkProcess {
  Args : list string;
  Env : list string;
  ProcessUser : User;
  Cwd : string
}.

(** ** The mutable world *)

(** What the probe executor does to the container's task: [EvExec] is a
    process created by [task.Exec], the others are calls on that
    process and on its IO. *)
Inductive ProcessEvent : Type :=
| EvExec (execID : string) (spec : Process)
| EvStart
| EvWait
| EvKill
| EvIOWait
| EvIOClose.

Record World : Type := mkWorld {
  (** the serialized [HealthState] label of the container, if any *)
  healthStateLabel : option HealthState;
  (** the health log, oldest entry first *)
  healthLog : list HealthcheckResult;
  (** processes created in the task and calls made on them, oldest
      first *)
  processEvents : list ProcessEvent;
  (** number of calls to [RemoveStartPeriodTimer] *)
  startPeriodTimerRemovals : nat
}.

(** ** What the collaborators answer during one invocation *)

(** How the probe process behaves.  [TimeoutFirst] and [ExitFirst] are
    the two branches of the [select]; [captured] is what the output
    buffer holds when the branch runs. *)
Inductive ProbeBehaviour : Type :=
| ExecFails (e : error)
| StartFails (e : error)
| WaitFails (e : error)
| TimeoutFirst (captured : string)
| ExitFirst (code : Z) (captured : string).

Record Tick : Type := mkTick {
  (** [container.Spec]: an error, or the spec's [Process] (nil or not) *)
  specAnswer : error + option Process;
  (** [container.Info]: an error, or [info.CreatedAt] *)
  infoAnswer : error + Time;
  (** failure of reading the health state label *)
  readFailure : option error;
  (** failure of writing the health state label *)
  writeStateFailure : option error;
  (** failure of writing the health log *)
  writeLogFailure : option error;
  (** [idgen.TruncateID (idgen.GenerateID ())] *)
  generatedID : string;
  probeBehaviour : ProbeBehaviour;
  (** [time.Now()] before the probe, when the probe ends, and when the
      entry point builds the result of a probe that could not run *)
  nowStart : Time;
  nowEnd : Time;
  nowFailed : Time
}.

(** One scheduler tick that reaches the state machine: what the
    collaborators answer, and the probe result. *)
Definition Step : Type := (Tick * HealthcheckResult)%type.

(** The same invocation with another behaviour of the probe process. *)
Definition withProbe (t : Tick) (b : ProbeBehaviour) : Tick :=
  {| specAnswer := specAnswer t;
     infoAnswer := infoAnswer t;
     readFailure := readFailure t;
     writeStateFailure := writeStateFailure t;
     writeLogFailure := writeLogFailure t;
     generatedID := generatedID t;
     probeBehaviour := b;
     nowStart := nowStart t;
     nowEnd := nowEnd t;
     nowFailed := nowFailed t |}.

(** The same invocation with other answers of the state repository. *)
Definition withPersistence (t : Tick)
           (rd : option error) (info : error + Time)
           (wrState wrLog : option error) : Tick :=
  {| specAnswer := specAnswer t;
     infoAnswer := info;
     readFailure := rd;
     writeStateFailure := wrState;
     writeLogFailure := wrLog;
     generatedID := generatedID t;
     probeBehaviour := probeBehaviour t;
     nowStart := nowStart t;
     nowEnd := nowEnd t;
     nowFailed := nowFailed t |}.

(** ** Concrete parameters and inputs, to run the model *)

(** The tags of the HEALTHCHECK format: an empty first element or
    [NONE] for no health check, [CMD] for an argument vector,
    [CMD-SHELL] for a shell string. *)
Definition tagTestNone : string := EmptyString.
Definition tagCmdNone : string := "NONE".
Definition tagCmd : string := "CMD".
Definition tagCmdShell : string := "CMD-SHELL".

(** [strings.TrimSpace] on ASCII strings: leading and trailing
    tab, newline, vertical tab, form feed, carriage return and space
    are removed. *)
Definition isAsciiSpace (c : Ascii.ascii) : bool :=
  let n := Ascii.nat_of_ascii c in
  ((9 <=? n) && (n <=? 13) || (n =? 32))%nat.

Fixpoint trimLeftAscii (s : string) : string :=
  match s with
  | EmptyString => EmptyString
  | String c rest => if isAsciiSpace c then trimLeftAscii rest else s
  end.

Fixpoint trimRightAscii (s : string) : string :=
  match s with
  | EmptyString => EmptyString
  | String c rest =>
      match trimRightAscii rest with
      | EmptyString =>
          if isAsciiSpace c then EmptyString else String c EmptyString
      | kept => String c kept
      end
  end.

Definition asciiTrimSpace (s : string) : string :=
  trimRightAscii (trimLeftAscii s).

Definition seconds (n : Z) : Time := n * 10 ^ 9.

(** [Duration.String] on the one duration the examples use. *)
Definition twoSeconds : Z := 2 * 10 ^ 9.
Definition printTwoSeconds (d : Z) : string := "2s".

(** A container with an ordinary process spec. *)
Definition sampleProcess : Process :=
  {| Args := ["nginx"];
     Env := ["PATH=/usr/bin:/bin"];
     ProcessUser := {| UID := 0; GID := 0; AdditionalGids := []; Username := EmptyString |};
     Cwd := "/" |}.

(** An invocation in which every collaborator succeeds: the container
    was created at time [0] and the probe starts at [now]. *)
Definition quietTick (now : Time) (b : ProbeBehaviour) : Tick :=
  {| specAnswer := inr (Some sampleProcess);
     infoAnswer := inr 0;
     readFailure := None;
     writeStateFailure := None;
     writeLogFailure := None;
     generatedID := "0123456789ab";
     probeBehaviour := b;
     nowStart := now;
     nowEnd := now + 1;
     nowFailed := now + 1 |}.

(** A probe result with the given start and exit code. *)
Definition resultAt (start : Time) (code : Z) : HealthcheckResult :=
  {| Start := start; End_ := start + 1; ExitCode := code; Output := "out" |}.

(** A configuration with a shell probe, a start period of ten seconds
    and the given number of retries. *)
Definition sampleConfig (retries : Z) : Healthcheck :=
  {| Test := ["CMD-SHELL"; "curl -f http://localhost/"];
     Interval := 30 * 10 ^ 9;
     Timeout := twoSeconds;
     StartPeriod := 10 * 10 ^ 9;
     StartInterval := 5 * 10 ^ 9;
     Retries := retries |}.

(** The same configuration with another [Test]. *)
Definition withTest (hc : Healthcheck) (test : list string) : Healthcheck :=
  {| Test := test;
     Interval := Interval hc;
     Timeout := Timeout hc;
     StartPeriod := StartPeriod hc;
     StartInterval := StartInterval hc;
     Retries := Retries hc |}.

(** A step of the state machine at [n] seconds after creation, all
    collaborators succeeding, with the exit code [code]. *)
Definition stepAt (n : Z) (code : Z) : Step :=
  (quietTick (seconds n) (ExitFirst code "out"), resultAt (seconds n) code).

(** A container for which nothing was recorded yet. *)
Definition freshWorld : World :=
  {| healthStateLabel := None;
     healthLog := [];
     processEvents := [];
     startPeriodTimerRemovals := 0 |}.

(** A container whose persisted state is the given one. *)
Definition worldWith (h : HealthState) : World :=
  {| healthStateLabel := Some h;
     healthLog := [];
     processEvents := [];
     startPeriodTimerRemovals := 0 |}.

(** The same configuration with another start period. *)
Definition withStartPeriod (hc : Healthcheck) (d : Z) : Healthcheck :=
  {| Test := Test hc;
     Interval := Interval hc;
     Timeout := Timeout hc;
     StartPeriod := d;
     StartInterval := StartInterval hc;
     Retries := Retries hc |}.

(** ** The systemd timers of the health checks
    (healthcheck_manager_linux.go) *)

Module Manager.

(** Go [error] values with text on both sides of the wrapped error:
    [ErrorWrap p c s] is [fmt.Errorf (p ++ "%w" ++ s, c)]. *)
Inductive error : Type :=
| ErrorNew (msg : string)
| ErrorWrap (prefix : string) (cause : error) (suffix : string).

Fixpoint Error (e : error) : string :=
  match e with
  | ErrorNew msg => msg
  | ErrorWrap prefix cause suffix => prefix ++ Error cause ++ suffix
  end.

(** What the code asks of systemd: a run of [systemd-run] with its
    arguments, and the calls on the DBus connection with the unit and
    the job mode.  [systemd-run] addresses the user manager when
    "--user" is among its options and the system manager otherwise; the
    DBus connection is always the one of the system bus
    ([dbus.NewSystemConnectionContext]). *)
Inductive SystemdCall : Type :=
| SystemdRun (argv : list string)
| RestartUnit (name mode : string)
| StopUnit (name mode : string)
| ResetFailedUnit (name : string).

(** The container and the host during one call.  The answers of the
    connection to DBus are given per workflow: each workflow opens its
    own connection, once. *)
Record Host : Type := mkHost {
  (** [container.ID()] *)
  containerID : string;
  (** [container.Labels]: nothing when it fails, else the value of the
      health check label, if the label is there *)
  healthCheckLabel : option (option string);
  (** [defaults.IsSystemdAvailable()] *)
  systemdAvailable : bool;
  (** [os.Getenv("DISABLE_HC_SYSTEMD")] *)
  disableHCSystemd : string;
  (** [rootlessutil.IsRootless()] *)
  isRootless : bool;
  (** [os.Getenv("PATH")] *)
  pathEnv : string;
  (** the debug level of the logger is enabled *)
  debugEnabled : bool;
  (** [rand.Int()] as [%x] prints it *)
  randomHex : string;
  (** failure of [dbus.NewSystemConnectionContext], per workflow *)
  dbusConnect : string -> option error;
  (** failure of [systemd-run] for an argument vector: the error and
      the combined output *)
  systemdRun : list string -> option (error * string);
  (** [RestartUnitContext] for a unit: an error, or the job result
      received on the channel *)
  restartUnit : string -> error + string
}.

Definition newline : string := String (Ascii.ascii_of_nat 10) EmptyString.

Section Timers.

(** [HealthCheckFromJSON] (nothing for an error) and
    [DefaultStartInterval] are declared in other files of the package;
    [strings.TrimSpace] and the [String] method of [time.Duration] are
    from Go's standard library. *)
Variable HealthCheckFromJSON : string -> option Healthcheck.
Variable DefaultStartInterval : Z.
Variable TrimSpace : string -> string.
Variable DurationString : Z -> string.

Definition hcUnitNameWithType (containerID workflowType : string)
           (bare : bool) (random : string) : string :=
  let unit := containerID in
  let unit := if (workflowType =? "start-period")%string
              then unit ++ "-start" else unit in
  if negb bare then unit ++ "-" ++ random else unit.

Definition extractHealthcheck (container : Host) : option Healthcheck :=
  match healthCheckLabel container with
  | None => None
  | Some None => None
  | Some (Some hcStr) =>
      if (hcStr =? EmptyString)%string then None
      else HealthCheckFromJSON hcStr
  end.

Definition shouldSkipHealthCheckSystemd (host : Host)
           (hc : option Healthcheck) : bool :=
  if negb (systemdAvailable host) || (disableHCSystemd host =? "true")%string
  then true
  else
    match hc with
    | None => true
    | Some hc =>
        if (List.length (Test hc) =? 0)%nat
           || (hd EmptyString (Test hc) =? "NONE")%string
           || (Interval hc =? 0)
        then true else false
    end.

Definition createTimerForWorkflow (host : Host) (containerID : string)
           (hc : Healthcheck) (workflowType interval : string)
           (calls : list SystemdCall) : option error * list SystemdCall :=
  let hcName := hcUnitNameWithType containerID workflowType true
                                   (randomHex host) in
  let cmd : list string := [] in
  let cmd := if isRootless host then (cmd ++ ["--user"])%list else cmd in
  let cmd := if negb (pathEnv host =? EmptyString)%string
             then (cmd ++ [("--setenv=PATH=" ++ pathEnv host)%string])%list
             else cmd in
  let cmd := (cmd ++ ["--unit"; (hcName ++ ".timer")%string;
                      ("--on-unit-inactive=" ++ interval)%string;
                      "--timer-property=AccuracySec=1s"])%list in
  let cmd := (cmd ++ ["nerdctl"; "container"; "healthcheck"])%list in
  let cmd := if (workflowType =? "health-interval")%string
             then (cmd ++ ["--health"])%list
             else if (workflowType =? "start-period")%string
                  then (cmd ++ ["--start-period"])%list
                  else cmd in
  let cmd := (cmd ++ [containerID])%list in
  let cmd := if debugEnabled host then (cmd ++ ["--debug"])%list else cmd in
  match dbusConnect host workflowType with
  | Some err =>
      (Some (ErrorWrap "systemd DBUS connect error: " err EmptyString), calls)
  | None =>
      match systemdRun host cmd with
      | Some (err, out) =>
          (Some (ErrorWrap ("systemd-run failed for " ++ workflowType ++ ": ")
                           err
                           (newline ++ "output: " ++ TrimSpace out)),
           (calls ++ [SystemdRun cmd])%list)
      | None => (None, (calls ++ [SystemdRun cmd])%list)
      end
  end.

Definition createHealthIntervalTimer (container : Host)
           (calls : list SystemdCall) : option error * list SystemdCall :=
  match extractHealthcheck container with
  | None => (None, calls)
  | Some hc =>
      if shouldSkipHealthCheckSystemd container (Some hc) then (None, calls)
      else
        createTimerForWorkflow container (containerID container) hc
                               "health-interval"
                               (DurationString (Interval hc)) calls
  end.

Definition createStartPeriodTimer (container : Host)
           (calls : list SystemdCall) : option error * list SystemdCall :=
  match extractHealthcheck container with
  | None => (None, calls)
  | Some hc =>
      if shouldSkipHealthCheckSystemd container (Some hc) then (None, calls)
      else if StartPeriod hc =? 0 then (None, calls)
      else
        let interval :=
          if StartInterval hc =? 0 then DurationString DefaultStartInterval
          else DurationString (StartInterval hc) in
        createTimerForWorkflow container (containerID container) hc
                               "start-period" interval calls
  end.

Definition CreateHealthCheckTimers (container : Host)
           (calls : list SystemdCall) : option error * list SystemdCall :=
  match extractHealthcheck container with
  | None => (None, calls)
  | Some hc =>
      if shouldSkipHealthCheckSystemd container (Some hc) then (None, calls)
      else
        match createHealthIntervalTimer container calls with
        | (Some err, calls1) =>
            (Some (ErrorWrap "failed to create health-interval timer: "
                             err EmptyString), calls1)
        | (None, calls1) =>
            match createStartPeriodTimer container calls1 with
            | (Some err, calls2) =>
                (Some (ErrorWrap "failed to create start-period timer: "
                                 err EmptyString), calls2)
            | (None, calls2) => (None, calls2)
            end
        end
  end.

Definition startTimerForWorkflow (host : Host)
           (containerID workflowType : string) (calls : list SystemdCall)
  : option error * list SystemdCall :=
  match dbusConnect host workflowType with
  | Some err =>
      (Some (ErrorWrap "systemd DBUS connect error: " err EmptyString), calls)
  | None =>
      let unitName := hcUnitNameWithType containerID workflowType true
                                         (randomHex host) in
      let unit := unitName ++ ".service" in
      let calls1 := (calls ++ [RestartUnit unit "fail"])%list in
      match restartUnit host unit with
      | inl err => (Some err, calls1)
      | inr msg =>
          if negb (msg =? "done")%string then
            (Some (ErrorNew ("unexpected systemd restart result for "
                               ++ workflowType ++ ": " ++ msg)), calls1)
          else (None, calls1)
      end
  end.

Definition StartHealthCheckTimers (container : Host)
           (calls : list SystemdCall) : option error * list SystemdCall :=
  match extractHealthcheck container with
  | None => (None, calls)
  | Some hc =>
      if shouldSkipHealthCheckSystemd container (Some hc) then (None, calls)
      else
        let containerID := containerID container in
        match startTimerForWorkflow container containerID
                                    "health-interval" calls with
        | (Some err, calls1) =>
            (Some (ErrorWrap "failed to start health-interval timer: "
                             err EmptyString), calls1)
        | (None, calls1) =>
            if 0 <? StartPeriod hc then
              match startTimerForWorkflow container containerID
                                          "start-period" calls1 with
              | (Some err, calls2) =>
                  (Some (ErrorWrap "failed to start start-period timer: "
                                   err EmptyString), calls2)
              | (None, calls2) => (None, calls2)
              end
            else (None, calls1)
        end
  end.

(** The answers of the two [StopUnitContext] and of
    [ResetFailedUnitContext] are only logged or dropped. *)
Definition removeTimerForWorkflow (host : Host)
           (containerID workflowType : string) (calls : list SystemdCall)
  : option error * list SystemdCall :=
  if negb (systemdAvailable host) || (disableHCSystemd host =? "true")%string
  then (None, calls)
  else
    match dbusConnect host workflowType with
    | Some err =>
        (Some (ErrorWrap "systemd DBUS connect error: " err EmptyString),
         calls)
    | None =>
        let unitName := hcUnitNameWithType containerID workflowType true
                                           (randomHex host) in
        let timer := unitName ++ ".timer" in
        let service := unitName ++ ".service" in
        (None,
         (calls ++ [StopUnit timer "ignore-dependencies";
                    StopUnit service "ignore-dependencies";
                    ResetFailedUnit service])%list)
    end.

Definition RemoveHealthIntervalTimer (host : Host) (containerID : string)
           (calls : list SystemdCall) : option error * list SystemdCall :=
  removeTimerForWorkflow host containerID "health-interval" calls.

Definition RemoveStartPeriodTimer (host : Host) (containerID : string)
           (calls : list SystemdCall) : option error * list SystemdCall :=
  removeTimerForWorkflow host containerID "start-period" calls.

(** The two errors are logged as warnings and dropped. *)
Definition RemoveAllHealthCheckTimers (host : Host) (containerID : string)
           (calls : list SystemdCall) : option error * list SystemdCall :=
  let '(_, calls1) := RemoveHealthIntervalTimer host containerID calls in
  let '(_, calls2) := RemoveStartPeriodTimer host containerID calls1 in
  (None, calls2).

Definition RemoveTransientHealthCheckFiles (container : Host)
           (calls : list SystemdCall) : option error * list SystemdCall :=
  RemoveAllHealthCheckTimers container (containerID container) calls.

Definition RemoveTransientHealthCheckFilesByID (host : Host)
           (containerID : string) (calls : list SystemdCall)
  : option error * list SystemdCall :=
  RemoveAllHealthCheckTimers host containerID calls.

(** The unit a [systemd-run] command line names: the argument after the
    first "--unit". *)
Fixpoint unitOfCommand (argv : list string) : option string :=
  match argv with
  | [] => None
  | a :: rest =>
      if (a =? "--unit")%string then hd_error rest else unitOfCommand rest
  end.

(** The timer units that the runs of [systemd-run] among [calls]
    name, by name only: in which manager a unit is created is decided
    by the "--user" option of the run. *)
Fixpoint timersCreated (calls : list SystemdCall) : list string :=
  match calls with
  | [] => []
  | SystemdRun argv :: rest =>
      match unitOfCommand argv with
      | Some u => u :: timersCreated rest
      | None => timersCreated rest
      end
  | _ :: rest => timersCreated rest
  end.

End Timers.

(** A host with systemd on which every call succeeds, the health check
    label holding the text ["hc"]. *)
Definition quietHost (id : string) : Host :=
  {| containerID := id;
     healthCheckLabel := Some (Some "hc");
     systemdAvailable := true;
     disableHCSystemd := EmptyString;
     isRootless := false;
     pathEnv := "/usr/bin:/bin";
     debugEnabled := false;
     randomHex := "2a";
     dbusConnect := fun _ => None;
     systemdRun := fun _ => None;
     restartUnit := fun _ => inr "done" |}.

(** A parser of the health check label that knows one text: ["hc"]
    is the sample configuration with three retries and a start period
    of minus one second. *)
Definition sampleFromJSON (text : string) : option Healthcheck :=
  if (text =? "hc")%string
  then Some (withStartPeriod (sampleConfig 3) (- (10 ^ 9)))
  else None.

End Manager.

(** ** The model of the code *)

Section HealthCheck.

(** The [Test] tags [TestNone], [CmdNone], [Cmd] and [CmdShell] are
    string constants declared in another file of the package. *)
Variables TestNone CmdNone Cmd CmdShell : string.

(** [strings.TrimSpace] and the [String] method of [time.Duration]
    (what [%v] prints), from Go's standard library. *)
Variable TrimSpace : string -> string.
Variable DurationString : Z -> string.

(** The retention capacity of the health log, a constant declared in
    another file of the package. *)
Variable MaxLogEntries : nat.

(** *** The state repository *)

(** Modelled from the spec: [readHealthStateFromLabels] is defined in
    another file of the package.  It is the get of the state
    repository: it fails, or gives the persisted state, nil when there
    is none. *)
Definition readHealthStateFromLabels (container : Tick) (w : World)
  : error + option HealthState :=
  match readFailure container with
  | Some e => inl e
  | None => inr (healthStateLabel w)
  end.

(** Modelled from the spec: [writeHealthStateToLabels] is defined in
    another file of the package.  It is the set of the state
    repository: it fails and stores nothing, or overwrites the persisted
    state. *)
Definition writeHealthStateToLabels (container : Tick) (h : HealthState)
           (w : World) : option error * World :=
  match writeStateFailure container with
  | Some e => (Some e, w)
  | None =>
      (None,
       {| healthStateLabel := Some h;
          healthLog := healthLog w;
          processEvents := processEvents w;
          startPeriodTimerRemovals := startPeriodTimerRemovals w |})
  end.

(** The last [n] elements of a list. *)
Definition keepLast {A : Type} (n : nat) (l : list A) : list A :=
  skipn (List.length l - n) l.

(** Modelled from the spec: [writeHealthLog] is defined in another file
    of the package.  It fails and stores nothing, or appends the result
    to the bounded log: keep the last [MaxLogEntries], oldest evicted
    first. *)
Definition writeHealthLog (container : Tick) (r : HealthcheckResult)
           (w : World) : option error * World :=
  match writeLogFailure container with
  | Some e => (Some e, w)
  | None =>
      (None,
       {| healthStateLabel := healthStateLabel w;
          healthLog := keepLast MaxLogEntries (healthLog w ++ [r]);
          processEvents := processEvents w;
          startPeriodTimerRemovals := startPeriodTimerRemovals w |})
  end.

(** [RemoveStartPeriodTimer]: its effect is on systemd; the world only
    counts the calls.  [updateHealthStatus] logs its error and goes
    on. *)
Definition RemoveStartPeriodTimer (w : World) : World :=
  {| healthStateLabel := healthStateLabel w;
     healthLog := healthLog w;
     processEvents := processEvents w;
     startPeriodTimerRemovals := S (startPeriodTimerRemovals w) |}.

(** The task and the probe process: each call is recorded. *)
Definition emit (evs : list ProcessEvent) (w : World) : World :=
  {| healthStateLabel := healthStateLabel w;
     healthLog := healthLog w;
     processEvents := processEvents w ++ evs;
     startPeriodTimerRemovals := startPeriodTimerRemovals w |}.

(** *** prepareProcessSpec *)

(** The result is [Ok None] for Go's [(nil, nil)].  Indexing the empty
    [Test] and dereferencing a nil [spec.Process] panic. *)
Definition prepareProcessSpec (container : Tick) (hcConfig : Healthcheck)
  : outcome (option Process) :=
  let hcCommand := Test hcConfig in
  (* the code after the switch *)
  let build (args : list string) : outcome (option Process) :=
    if (List.length args <? 1)%nat || (hd EmptyString args =? EmptyString)%string then
      Err (ErrorNew "no health check command specified")
    else
      match specAnswer container with
      | inl err => Err (ErrorWrap "failed to get container spec: " err)
      | inr None => Panic "invalid memory address or nil pointer dereference"
      | inr (Some p) =>
          Ok (Some {| Args := args;
                      Env := Env p;
                      ProcessUser := ProcessUser p;
                      Cwd := Cwd p |})
      end in
  match hcCommand with
  | [] => Panic "index out of range [0] with length 0"
  | tag :: rest =>
      if (tag =? TestNone)%string || (tag =? CmdNone)%string then
        Ok None
      else if (tag =? Cmd)%string then
        build rest
      else if (tag =? CmdShell)%string then
        if (List.length hcCommand <? 2)%nat
           || (TrimSpace (nth 1 hcCommand EmptyString) =? EmptyString)%string then
          Err (ErrorNew "no health check command specified")
        else
          build ["/bin/sh"; "-c"; String.concat " " rest]
      else
        build hcCommand
  end.

(** *** probeHealthCheck *)

Definition timeoutMessage (hc : Healthcheck) (out : string) : string :=
  if (0 <? String.length out)%nat then
    "Health check exceeded timeout (" ++ DurationString (Timeout hc)
      ++ "): " ++ out
  else
    "Health check exceeded timeout (" ++ DurationString (Timeout hc) ++ ")".

(** The result is [inr r] for Go's [(r, nil)] and [inl e] for
    [(nil, e)].  The [Start] field is left at its zero value. *)
Definition probeHealthCheck (task : Tick) (hc : Healthcheck)
           (processSpec : Process) (w : World)
  : (error + HealthcheckResult) * World :=
  let execID := "health-check-" ++ generatedID task in
  match probeBehaviour task with
  | ExecFails err =>
      (inl (ErrorWrap "exec error: " err), w)
  | StartFails err =>
      (inl (ErrorWrap "start error: " err),
       emit [EvExec execID processSpec] w)
  | WaitFails err =>
      (inl (ErrorWrap "failed to wait for health check: " err),
       emit [EvExec execID processSpec; EvStart] w)
  | TimeoutFirst out =>
      (inr {| Start := zeroTime;
              End_ := nowEnd task;
              ExitCode := -1;
              Output := timeoutMessage hc out |},
       emit [EvExec execID processSpec; EvStart; EvWait;
             EvKill; EvIOWait; EvIOClose] w)
  | ExitFirst code out =>
      (inr {| Start := zeroTime;
              End_ := nowEnd task;
              ExitCode := code;
              Output := out |},
       emit [EvExec execID processSpec; EvStart; EvWait;
             EvIOWait; EvIOClose] w)
  end.

(** *** updateHealthStatus *)

Definition defaultHealthState : HealthState :=
  {| Status := Starting; FailingStreak := 0 |}.

(** [hcResult.Start.Sub(containerCreated) < startPeriod] *)
Definition stillInStartPeriod (hcConfig : Healthcheck)
           (hcResult : HealthcheckResult) (containerCreated : Time) : bool :=
  Sub (Start hcResult) containerCreated <? StartPeriod hcConfig.

(** The two writes that end [updateHealthStatus]. *)
Definition persist (container : Tick) (currentHealth : HealthState)
           (hcResult : HealthcheckResult) (w : World)
  : option error * World :=
  match writeHealthStateToLabels container currentHealth w with
  | (Some err, w1) =>
      (Some (ErrorWrap "failed to write health state to labels: " err), w1)
  | (None, w1) =>
      match writeHealthLog container hcResult w1 with
      | (Some err, w2) =>
          (Some (ErrorWrap "failed to write health log: " err), w2)
      | (None, w2) => (None, w2)
      end
  end.

Definition updateHealthStatus (container : Tick) (hcConfig : Healthcheck)
           (hcResult : HealthcheckResult) (workflowType : string)
           (w : World) : option error * World :=
  match readHealthStateFromLabels container w with
  | inl err =>
      (Some (ErrorWrap "failed to read health state from labels: " err), w)
  | inr read =>
      let currentHealth :=
        match read with
        | None => defaultHealthState
        | Some h => h
        end in
      match infoAnswer container with
      | inl err =>
          (Some (ErrorWrap "failed to get container info: " err), w)
      | inr containerCreated =>
          let still := stillInStartPeriod hcConfig hcResult containerCreated in
          if (workflowType =? "start-period")%string then
            if HealthStatus_eqb (Status currentHealth) Healthy || negb still
            then
              (None, RemoveStartPeriodTimer w)
            else if ExitCode hcResult =? 0 then
              persist container
                      {| Status := Healthy; FailingStreak := 0 |}
                      hcResult (RemoveStartPeriodTimer w)
            else
              persist container currentHealth hcResult w
          else if (workflowType =? "health-interval")%string then
            if ExitCode hcResult =? 0 then
              persist container
                      {| Status := Healthy; FailingStreak := 0 |}
                      hcResult w
            else if negb still then
              let streak := wrap64 (FailingStreak currentHealth + 1) in
              if Retries hcConfig <=? streak then
                persist container
                        {| Status := Unhealthy; FailingStreak := streak |}
                        hcResult w
              else
                persist container
                        {| Status := Status currentHealth;
                           FailingStreak := streak |}
                        hcResult w
            else
              persist container currentHealth hcResult w
          else
            (Some (ErrorNew ("unknown workflow type: " ++ workflowType)), w)
      end
  end.

(** *** ExecuteHealthCheck *)

Definition ExecuteHealthCheck (container : Tick) (hc : Healthcheck)
           (workflowType : string) (w : World) : outcome unit * World :=
  match prepareProcessSpec container hc with
  | Panic msg => (Panic msg, w)
  | Err err => (Err err, w)
  | Ok None => (Ok tt, w)
  | Ok (Some processSpec) =>
      let startTime := nowStart container in
      match probeHealthCheck container hc processSpec w with
      | (inl err, w1) =>
          let '(_, w2) :=
            updateHealthStatus container hc
              {| Start := startTime;
                 End_ := nowFailed container;
                 ExitCode := -1;
                 Output := Error err |}
              workflowType w1 in
          (Err (ErrorWrap "health check probe failed: " err), w2)
      | (inr result, w1) =>
          let result :=
            {| Start := startTime;
               End_ := End_ result;
               ExitCode := ExitCode result;
               Output := Output result |} in
          match updateHealthStatus container hc result workflowType w1 with
          | (Some err, w2) =>
              (Err (ErrorWrap "failed to update health status: " err), w2)
          | (None, w2) => (Ok tt, w2)
          end
      end
  end.

(** *** Runs of the state machine *)

(** The persisted state as the state machine sees it: the default
    [{Starting, 0}] when nothing is stored yet. *)
Definition currentHealthOf (w : World) : HealthState :=
  match healthStateLabel w with
  | None => defaultHealthState
  | Some h => h
  end.

(** Consecutive calls of [updateHealthStatus] for one container, with
    one configuration and one workflow; the worlds after each call. *)
Fixpoint runUpdates (hcConfig : Healthcheck) (workflowType : string)
         (steps : list Step) (w : World) : list World :=
  match steps with
  | [] => []
  | (container, hcResult) :: rest =>
      let w1 := snd (updateHealthStatus container hcConfig hcResult
                                        workflowType w) in
      w1 :: runUpdates hcConfig workflowType rest w1
  end.


(** ** Properties *)

(** The invariant of the data model: a healthy state has no failing
    streak. *)
Definition healthyHasNoStreak (h : HealthState) : Prop :=
  Status h = Healthy -> FailingStreak h = 0.

(** The collaborators of [updateHealthStatus] answer without error up to
    the write of the state, and the container was created at [created]. *)
Definition stateRecorded (container : Tick) (created : Time) : Prop :=
  readFailure container = None /\
  infoAnswer container = inr created /\
  writeStateFailure container = None.

(** A step of the health-interval workflow whose failure is counted:
    the state is read and written, the probe failed, and it started
    after the start period. *)
Definition countedFailure (hcConfig : Healthcheck) (s : Step) : Prop :=
  exists created,
    stateRecorded (fst s) created /\
    ExitCode (snd s) <> 0 /\
    stillInStartPeriod hcConfig (snd s) created = false.

(** A step whose failure falls in the start period: the probe failed,
    and it started within the start period whenever the creation time
    of the container is known. *)
Definition graceFailure (hcConfig : Healthcheck) (s : Step) : Prop :=
  ExitCode (snd s) <> 0 /\
  forall created,
    infoAnswer (fst s) = inr created ->
    stillInStartPeriod hcConfig (snd s) created = true.

(** The event of a process being created in the task. *)
Definition isExec (ev : ProcessEvent) : bool :=
  match ev with
  | EvExec _ _ => true
  | _ => false
  end.

(** *** Auxiliary facts *)

Lemma HealthStatus_eqb_eq (a b : HealthStatus) :
  HealthStatus_eqb a b = true <-> a = b.
Proof. destruct a, b; simpl; split; congruence. Qed.

Lemma persist_state (container : Tick) (h : HealthState)
      (r : HealthcheckResult) (w : World) :
  writeStateFailure container = None ->
  healthStateLabel (snd (persist container h r w)) = Some h.
Proof.
  intros Hw. unfold persist, writeHealthStateToLabels, writeHealthLog.
  rewrite Hw. destruct (writeLogFailure container); reflexivity.
Qed.

Lemma persist_state_failed (container : Tick) (h : HealthState)
      (r : HealthcheckResult) (w : World) (e : error) :
  writeStateFailure container = Some e ->
  persist container h r w
  = (Some (ErrorWrap "failed to write health state to labels: " e), w).
Proof.
  intros Hw. unfold persist, writeHealthStateToLabels. rewrite Hw. reflexivity.
Qed.

(** Whatever the collaborators answer, [persist] leaves the persisted
    state as it was or sets it to the state it was given. *)
Lemma persist_state_cases (container : Tick) (h : HealthState)
      (r : HealthcheckResult) (w : World) :
  healthStateLabel (snd (persist container h r w)) = healthStateLabel w \/
  healthStateLabel (snd (persist container h r w)) = Some h.
Proof.
  unfold persist, writeHealthStateToLabels, writeHealthLog.
  destruct (writeStateFailure container); [left; reflexivity|].
  destruct (writeLogFailure container); right; reflexivity.
Qed.


(** Once the state is read and the creation time is known,
    [updateHealthStatus] is the decision tree of the two workflows on
    [currentHealthOf w]. *)
Lemma updateHealthStatus_decision (container : Tick) (hcConfig : Healthcheck)
      (hcResult : HealthcheckResult) (workflowType : string) (w : World)
      (created : Time) :
  readFailure container = None ->
  infoAnswer container = inr created ->
  updateHealthStatus container hcConfig hcResult workflowType w =
  let currentHealth := currentHealthOf w in
  let still := stillInStartPeriod hcConfig hcResult created in
  if (workflowType =? "start-period")%string then
    if HealthStatus_eqb (Status currentHealth) Healthy || negb still then
      (None, RemoveStartPeriodTimer w)
    else if ExitCode hcResult =? 0 then
      persist container {| Status := Healthy; FailingStreak := 0 |}
              hcResult (RemoveStartPeriodTimer w)
    else persist container currentHealth hcResult w
  else if (workflowType =? "health-interval")%string then
    if ExitCode hcResult =? 0 then
      persist container {| Status := Healthy; FailingStreak := 0 |} hcResult w
    else if negb still then
      let streak := wrap64 (FailingStreak currentHealth + 1) in
      if Retries hcConfig <=? streak then
        persist container {| Status := Unhealthy; FailingStreak := streak |}
                hcResult w
      else
        persist container {| Status := Status currentHealth;
                             FailingStreak := streak |} hcResult w
    else persist container currentHealth hcResult w
  else (Some (ErrorNew ("unknown workflow type: " ++ workflowType)), w).
Proof.
  intros Hr Hi. unfold updateHealthStatus, readHealthStateFromLabels.
  rewrite Hr, Hi. reflexivity.
Qed.

(** When the state cannot be read or the creation time is not known,
    [updateHealthStatus] fails and changes nothing. *)
Lemma updateHealthStatus_early_failure (container : Tick)
      (hcConfig : Healthcheck) (hcResult : HealthcheckResult)
      (workflowType : string) (w : World) :
  (readFailure container <> None \/
   exists err, infoAnswer container = inl err) ->
  exists e, updateHealthStatus container hcConfig hcResult workflowType w
            = (Some e, w).
Proof.
  unfold updateHealthStatus, readHealthStateFromLabels.
  intros [Hr | [err Hi]].
  - destruct (readFailure container) as [e|]; [|congruence]. eauto.
  - destruct (readFailure container) as [e|]; [eauto|]. rewrite Hi. eauto.
Qed.

(** *** The health state machine *)

(** C1, amended.  A probe result with exit code 0 makes the state
    [{Healthy, 0}] under the health-interval workflow from any prior
    state, and under the start-period workflow when the prior status is
    not Healthy and the probe started within the start period.  Under
    the start-period workflow with a Healthy prior status or an expired
    start period, the persisted state is left as it was. *)
Theorem exit_zero_state (container : Tick) (hcConfig : Healthcheck)
        (hcResult : HealthcheckResult) (workflowType : string) (w : World)
        (created : Time) :
  stateRecorded container created ->
  ExitCode hcResult = 0 ->
  let w' := snd (updateHealthStatus container hcConfig hcResult
                                    workflowType w) in
  (workflowType = "health-interval" ->
   healthStateLabel w' = Some {| Status := Healthy; FailingStreak := 0 |})
  /\
  (workflowType = "start-period" ->
   Status (currentHealthOf w) <> Healthy ->
   stillInStartPeriod hcConfig hcResult created = true ->
   healthStateLabel w' = Some {| Status := Healthy; FailingStreak := 0 |})
  /\
  (workflowType = "start-period" ->
   Status (currentHealthOf w) = Healthy
   \/ stillInStartPeriod hcConfig hcResult created = false ->
   healthStateLabel w' = healthStateLabel w).
Proof.
  intros (Hr & Hi & Hw) Hexit w'. subst w'.
  rewrite (updateHealthStatus_decision _ _ _ _ _ _ Hr Hi). cbv zeta.
  repeat split.
  - intros ->. simpl. rewrite Hexit. simpl. now apply persist_state.
  - intros -> Hst Hstill. simpl. rewrite Hstill, Hexit. simpl.
    destruct (HealthStatus_eqb (Status (currentHealthOf w)) Healthy) eqn:E.
    + apply HealthStatus_eqb_eq in E. contradiction.
    + simpl. now apply persist_state.
  - intros -> [Hst | Hstill]; simpl.
    + rewrite Hst. reflexivity.
    + rewrite Hstill, orb_true_r. reflexivity.
Qed.


Lemma currentHealthOf_persist (container : Tick) (h : HealthState)
      (r : HealthcheckResult) (w : World) :
  currentHealthOf (snd (persist container h r w)) = currentHealthOf w \/
  currentHealthOf (snd (persist container h r w)) = h.
Proof.
  unfold currentHealthOf at 1 3.
  destruct (persist_state_cases container h r w) as [E | E]; rewrite E.
  - left. reflexivity.
  - right. reflexivity.
Qed.

(** C2, amended.  From a state with [FailingStreak = 0] whenever
    [Status = Healthy], every call of [updateHealthStatus] gives such a
    state again, except in one case: under the health-interval workflow,
    a failing probe that started after the start period, met in status
    Healthy with [Retries > 1], gives [{Healthy, 1}] - the status stays
    Healthy until the streak reaches [Retries]. *)
Theorem healthy_streak_after_update (container : Tick)
        (hcConfig : Healthcheck) (hcResult : HealthcheckResult)
        (workflowType : string) (w : World) :
  healthyHasNoStreak (currentHealthOf w) ->
  let w' := snd (updateHealthStatus container hcConfig hcResult
                                    workflowType w) in
  healthyHasNoStreak (currentHealthOf w')
  \/
  (workflowType = "health-interval" /\
   ExitCode hcResult <> 0 /\
   (exists created, infoAnswer container = inr created /\
                    stillInStartPeriod hcConfig hcResult created = false) /\
   Status (currentHealthOf w) = Healthy /\
   1 < Retries hcConfig /\
   currentHealthOf w' = {| Status := Healthy; FailingStreak := 1 |}).
Proof.
  intros Hinv w'. subst w'.
  destruct (readFailure container) as [e|] eqn:Hr.
  { destruct (updateHealthStatus_early_failure container hcConfig hcResult
                workflowType w) as [e' E].
    - left. congruence.
    - rewrite E. left. exact Hinv. }
  destruct (infoAnswer container) as [err|created] eqn:Hi.
  { destruct (updateHealthStatus_early_failure container hcConfig hcResult
                workflowType w) as [e' E].
    - right. eauto.
    - rewrite E. left. exact Hinv. }
  rewrite (updateHealthStatus_decision _ _ _ _ _ _ Hr Hi). cbv zeta.
  assert (Hgood : forall h r w0,
             currentHealthOf w0 = currentHealthOf w ->
             healthyHasNoStreak h ->
             healthyHasNoStreak (currentHealthOf (snd (persist container h r w0)))).
  { intros h r w0 Hw0 Hh.
    destruct (currentHealthOf_persist container h r w0) as [E | E];
      rewrite E; [rewrite Hw0|]; assumption. }
  destruct (workflowType =? "start-period")%string eqn:Esp.
  { left.
    destruct (HealthStatus_eqb (Status (currentHealthOf w)) Healthy
              || negb (stillInStartPeriod hcConfig hcResult created)).
    - exact Hinv.
    - destruct (ExitCode hcResult =? 0).
      + apply Hgood; [reflexivity | intros _; reflexivity].
      + apply Hgood; [reflexivity | exact Hinv]. }
  destruct (workflowType =? "health-interval")%string eqn:Ehi;
    [| left; exact Hinv].
  apply String.eqb_eq in Ehi.
  destruct (ExitCode hcResult =? 0) eqn:Eexit.
  { left. apply Hgood; [reflexivity | intros _; reflexivity]. }
  apply Z.eqb_neq in Eexit.
  destruct (stillInStartPeriod hcConfig hcResult created) eqn:Estill; simpl.
  { left. apply Hgood; [reflexivity | exact Hinv]. }
  destruct (Retries hcConfig <=? wrap64 (FailingStreak (currentHealthOf w) + 1))
    eqn:Eret.
  { left. apply Hgood; [reflexivity | simpl; discriminate]. }
  apply Z.leb_gt in Eret.
  match goal with
  | |- context [persist container ?h ?r w] =>
      destruct (currentHealthOf_persist container h r w) as [E | E]
  end.
  { left. rewrite E. exact Hinv. }
  destruct (Status (currentHealthOf w)) eqn:Est.
  - left. rewrite E. unfold healthyHasNoStreak. simpl. discriminate.
  - right. pose proof (Hinv Est) as Hz. rewrite Hz in E, Eret |- *.
    change (wrap64 (0 + 1)) with 1 in E, Eret |- *.
    split; [exact Ehi|]. split; [exact Eexit|].
    split; [exists created; split; [reflexivity | exact Estill]|].
    split; [reflexivity|]. split; [exact Eret | exact E].
  - left. rewrite E. unfold healthyHasNoStreak. simpl. discriminate.
Qed.

(** One counted failure of the health-interval workflow: the streak is
    incremented, and the status becomes Unhealthy when the streak has
    reached [Retries]. *)
Lemma counted_failure_step (hcConfig : Healthcheck) (s : Step) (w : World) :
  countedFailure hcConfig s ->
  currentHealthOf
    (snd (updateHealthStatus (fst s) hcConfig (snd s) "health-interval" w))
  = let streak := wrap64 (FailingStreak (currentHealthOf w) + 1) in
    {| Status := if Retries hcConfig <=? streak then Unhealthy
                 else Status (currentHealthOf w);
       FailingStreak := streak |}.
Proof.
  intros (created & (Hr & Hi & Hw) & Hexit & Hstill).
  rewrite (updateHealthStatus_decision _ _ _ _ _ _ Hr Hi). cbv zeta.
  simpl. apply Z.eqb_neq in Hexit. rewrite Hexit, Hstill. simpl.
  unfold currentHealthOf at 1.
  destruct (Retries hcConfig <=? wrap64 (FailingStreak (currentHealthOf w) + 1));
    rewrite persist_state by assumption; reflexivity.
Qed.

(** C3.  Health-interval workflow, probes started after the start
    period, [Retries = 3], from the default state: three consecutive
    failing results give the states [{Starting, 1}], [{Starting, 2}],
    [{Unhealthy, 3}] - the status flips exactly on the third failure,
    where the streak is exactly 3. *)
Theorem three_failures_flip (hcConfig : Healthcheck) (s1 s2 s3 : Step)
        (w : World) :
  Retries hcConfig = 3 ->
  currentHealthOf w = defaultHealthState ->
  countedFailure hcConfig s1 ->
  countedFailure hcConfig s2 ->
  countedFailure hcConfig s3 ->
  map currentHealthOf
      (w :: runUpdates hcConfig "health-interval" [s1; s2; s3] w)
  = [ {| Status := Starting; FailingStreak := 0 |};
      {| Status := Starting; FailingStreak := 1 |};
      {| Status := Starting; FailingStreak := 2 |};
      {| Status := Unhealthy; FailingStreak := 3 |} ].
Proof.
  intros Hret Hw H1 H2 H3.
  destruct s1 as [c1 r1], s2 as [c2 r2], s3 as [c3 r3].
  cbn [runUpdates map].
  pose proof (counted_failure_step hcConfig (c1, r1) w H1) as E1.
  cbn [fst snd] in E1. rewrite Hw, Hret in E1. cbn in E1.
  set (w1 := snd (updateHealthStatus c1 hcConfig r1 "health-interval" w)) in *.
  pose proof (counted_failure_step hcConfig (c2, r2) w1 H2) as E2.
  cbn [fst snd] in E2. rewrite E1, Hret in E2. cbn in E2.
  set (w2 := snd (updateHealthStatus c2 hcConfig r2 "health-interval" w1)) in *.
  pose proof (counted_failure_step hcConfig (c3, r3) w2 H3) as E3.
  cbn [fst snd] in E3. rewrite E2, Hret in E3. cbn in E3.
  rewrite Hw, E1, E2, E3. reflexivity.
Qed.




(** *** The probe executor and the entry point *)

(** The return value of [persist], the state it leaves and the count of
    timer removals depend on the world through the persisted state and
    that count only, and not on the result. *)
Lemma persist_congr (container : Tick) (h : HealthState)
      (r1 r2 : HealthcheckResult) (w1 w2 : World) :
  healthStateLabel w1 = healthStateLabel w2 ->
  startPeriodTimerRemovals w1 = startPeriodTimerRemovals w2 ->
  fst (persist container h r1 w1) = fst (persist container h r2 w2) /\
  healthStateLabel (snd (persist container h r1 w1))
  = healthStateLabel (snd (persist container h r2 w2)) /\
  startPeriodTimerRemovals (snd (persist container h r1 w1))
  = startPeriodTimerRemovals (snd (persist container h r2 w2)).
Proof.
  intros Hl Ht.
  unfold persist, writeHealthStateToLabels, writeHealthLog.
  destruct (writeStateFailure container); [simpl; auto|].
  destruct (writeLogFailure container); simpl; auto.
Qed.

(** Two failed probes with the same start are treated alike by
    [updateHealthStatus]: same return value, same state, same calls to
    [RemoveStartPeriodTimer]. *)
Lemma updateHealthStatus_failed_alike (container : Tick) (hc : Healthcheck)
      (r1 r2 : HealthcheckResult) (workflowType : string) (w1 w2 : World) :
  Start r1 = Start r2 ->
  ExitCode r1 <> 0 -> ExitCode r2 <> 0 ->
  healthStateLabel w1 = healthStateLabel w2 ->
  startPeriodTimerRemovals w1 = startPeriodTimerRemovals w2 ->
  fst (updateHealthStatus container hc r1 workflowType w1)
  = fst (updateHealthStatus container hc r2 workflowType w2) /\
  healthStateLabel (snd (updateHealthStatus container hc r1 workflowType w1))
  = healthStateLabel (snd (updateHealthStatus container hc r2 workflowType w2))
  /\
  startPeriodTimerRemovals
    (snd (updateHealthStatus container hc r1 workflowType w1))
  = startPeriodTimerRemovals
      (snd (updateHealthStatus container hc r2 workflowType w2)).
Proof.
  intros Hs H1 H2 Hl Ht.
  apply Z.eqb_neq in H1. apply Z.eqb_neq in H2.
  unfold updateHealthStatus, readHealthStateFromLabels, stillInStartPeriod.
  rewrite H1, H2, Hs, Hl.
  destruct (readFailure container); [simpl; auto|].
  destruct (infoAnswer container) as [err|created]; [simpl; auto|].
  assert (P : forall h,
             fst (persist container h r1 w1) = fst (persist container h r2 w2) /\
             healthStateLabel (snd (persist container h r1 w1))
             = healthStateLabel (snd (persist container h r2 w2)) /\
             startPeriodTimerRemovals (snd (persist container h r1 w1))
             = startPeriodTimerRemovals (snd (persist container h r2 w2))).
  { intros h. now apply persist_congr. }
  destruct (workflowType =? "start-period")%string.
  { destruct (HealthStatus_eqb _ Healthy || negb _); [simpl; auto | apply P]. }
  destruct (workflowType =? "health-interval")%string; [| simpl; auto].
  destruct (negb _); [| apply P].
  destruct (Retries hc <=? _); apply P.
Qed.

(** C5.  When the timeout elapses before the probe process exits,
    [probeHealthCheck] returns, with a nil error, a result with exit
    code -1 and the output "Health check exceeded timeout (<duration>)",
    followed by a colon, a space and the captured output when that is
    not empty.  The entry point hands this result, with its start time,
    to [updateHealthStatus] as it does for a probe that exited, and the
    state machine treats it as it treats any probe that exited with a
    code other than 0. *)
Theorem timeout_is_failed_result (task : Tick) (hc : Healthcheck)
        (processSpec : Process) (workflowType : string) (w : World)
        (captured : string) :
  probeBehaviour task = TimeoutFirst captured ->
  let message :=
    match captured with
    | EmptyString =>
        "Health check exceeded timeout (" ++ DurationString (Timeout hc) ++ ")"
    | _ =>
        "Health check exceeded timeout (" ++ DurationString (Timeout hc)
          ++ "): " ++ captured
    end in
  fst (probeHealthCheck task hc processSpec w)
  = inr {| Start := zeroTime; End_ := nowEnd task;
           ExitCode := -1; Output := message |}
  /\
  (prepareProcessSpec task hc = Ok (Some processSpec) ->
   ExecuteHealthCheck task hc workflowType w
   = match updateHealthStatus task hc
             {| Start := nowStart task; End_ := nowEnd task;
                ExitCode := -1; Output := message |}
             workflowType (snd (probeHealthCheck task hc processSpec w)) with
     | (Some err, w2) =>
         (Err (ErrorWrap "failed to update health status: " err), w2)
     | (None, w2) => (Ok tt, w2)
     end)
  /\
  (forall code out,
      code <> 0 ->
      let exited := withProbe task (ExitFirst code out) in
      fst (ExecuteHealthCheck exited hc workflowType w)
      = fst (ExecuteHealthCheck task hc workflowType w) /\
      healthStateLabel (snd (ExecuteHealthCheck exited hc workflowType w))
      = healthStateLabel (snd (ExecuteHealthCheck task hc workflowType w)) /\
      startPeriodTimerRemovals
        (snd (ExecuteHealthCheck exited hc workflowType w))
      = startPeriodTimerRemovals
          (snd (ExecuteHealthCheck task hc workflowType w))).
Proof.
  intros Hb message.
  assert (Hmsg : timeoutMessage hc captured = message).
  { unfold timeoutMessage, message. destruct captured; reflexivity. }
  assert (Hprobe : forall spec,
             probeHealthCheck task hc spec w
             = (inr {| Start := zeroTime; End_ := nowEnd task;
                       ExitCode := -1; Output := message |},
                emit [EvExec ("health-check-" ++ generatedID task) spec;
                      EvStart; EvWait; EvKill; EvIOWait; EvIOClose] w)).
  { intros spec. unfold probeHealthCheck. rewrite Hb, Hmsg. reflexivity. }
  split; [rewrite Hprobe; reflexivity|].
  split.
  - intros Hspec. unfold ExecuteHealthCheck. rewrite Hspec, Hprobe.
    reflexivity.
  - intros code out Hcode exited.
    unfold ExecuteHealthCheck.
    change (prepareProcessSpec exited hc) with (prepareProcessSpec task hc).
    destruct (prepareProcessSpec task hc) as [[spec|] | e | m];
      try (simpl; auto; fail).
    rewrite Hprobe.
    change (probeHealthCheck exited hc spec w)
      with (inr {| Start := zeroTime; End_ := nowEnd task;
                   ExitCode := code; Output := out |} : error + _,
            emit [EvExec ("health-check-" ++ generatedID task) spec;
                  EvStart; EvWait; EvIOWait; EvIOClose] w).
    cbv iota beta.
    match goal with
    | |- context [updateHealthStatus exited hc ?r1 workflowType ?w1] =>
        match goal with
        | |- context [updateHealthStatus task hc ?r2 workflowType ?w2] =>
            destruct (updateHealthStatus_failed_alike task hc r1 r2
                        workflowType w1 w2) as (A & B & C);
            [reflexivity | exact Hcode | simpl; lia
             | reflexivity | reflexivity |];
            change (updateHealthStatus exited hc r1 workflowType w1)
              with (updateHealthStatus task hc r1 workflowType w1);
            destruct (updateHealthStatus task hc r1 workflowType w1)
              as [[e1|] x1];
            destruct (updateHealthStatus task hc r2 workflowType w2)
              as [[e2|] x2]
        end
    end; simpl in *; try discriminate; repeat split; congruence.
Qed.


(** With room for at least one entry, the bounded log ends with the
    result just appended. *)
Lemma keepLast_app_last (A : Type) (n : nat) (l : list A) (x : A) :
  (0 < n)%nat -> exists kept, keepLast n (l ++ [x]) = (kept ++ [x])%list.
Proof.
  intros Hn. unfold keepLast. rewrite skipn_app, length_app. simpl.
  replace (List.length l + 1 - n - List.length l)%nat with 0%nat by lia.
  eexists. reflexivity.
Qed.

(** The probe executor touches the process events only. *)
Lemma probeHealthCheck_frame (task : Tick) (hc : Healthcheck)
      (processSpec : Process) (w : World) :
  let w1 := snd (probeHealthCheck task hc processSpec w) in
  healthStateLabel w1 = healthStateLabel w /\
  healthLog w1 = healthLog w /\
  startPeriodTimerRemovals w1 = startPeriodTimerRemovals w.
Proof.
  cbv zeta. unfold probeHealthCheck.
  destruct (probeBehaviour task); cbn [snd]; repeat split.
Qed.

(** [persist] when both writes succeed. *)
Lemma persist_writes (container : Tick) (h : HealthState)
      (r : HealthcheckResult) (w : World) :
  writeStateFailure container = None ->
  writeLogFailure container = None ->
  healthStateLabel (snd (persist container h r w)) = Some h /\
  healthLog (snd (persist container h r w))
  = keepLast MaxLogEntries (healthLog w ++ [r]).
Proof.
  intros Hs Hl. unfold persist, writeHealthStateToLabels, writeHealthLog.
  rewrite Hs, Hl. split; reflexivity.
Qed.

(** C6, amended.  When the probe fails with an infrastructure error
    (exec, start or wait), the entry point hands the result
    [{ExitCode = -1, Output = error text}], with the time taken before
    the probe as its start, to [updateHealthStatus], and returns an
    error that wraps the probe's error, never success.  Whether the
    result is recorded is decided by the workflow.  When the state
    repository answers without error and the log keeps at least one
    entry: under the health-interval workflow the result is the newest
    entry of the health log and the persisted state is the one the
    failure rule gives; under the start-period workflow with a status
    other than Healthy and the probe started within the start period,
    the result is the newest entry of the log and the state is written
    back as it was; under the start-period workflow with the status
    Healthy or the start period expired, nothing is recorded: the
    persisted state and the health log are left as they were. *)
Theorem infrastructure_error_recorded_and_returned
        (container : Tick) (hc : Healthcheck) (workflowType : string)
        (w : World) (processSpec : Process) (err : error) (created : Time) :
  prepareProcessSpec container hc = Ok (Some processSpec) ->
  fst (probeHealthCheck container hc processSpec w) = inl err ->
  let failed := {| Start := nowStart container;
                   End_ := nowFailed container;
                   ExitCode := -1;
                   Output := Error err |} in
  let w1 := snd (probeHealthCheck container hc processSpec w) in
  let out := ExecuteHealthCheck container hc workflowType w in
  let still := stillInStartPeriod hc failed created in
  let cur := currentHealthOf w in
  fst out = Err (ErrorWrap "health check probe failed: " err)
  /\
  Unwrap (ErrorWrap "health check probe failed: " err) = Some err
  /\
  snd out = snd (updateHealthStatus container hc failed workflowType w1)
  /\
  (stateRecorded container created ->
   writeLogFailure container = None ->
   (0 < MaxLogEntries)%nat ->
   (workflowType = "health-interval" ->
    (exists older, healthLog (snd out) = (older ++ [failed])%list) /\
    healthStateLabel (snd out)
    = Some (if still then cur
            else
              let streak := wrap64 (FailingStreak cur + 1) in
              {| Status := if Retries hc <=? streak then Unhealthy
                           else Status cur;
                 FailingStreak := streak |}))
   /\
   (workflowType = "start-period" ->
    Status cur <> Healthy -> still = true ->
    (exists older, healthLog (snd out) = (older ++ [failed])%list) /\
    healthStateLabel (snd out) = Some cur)
   /\
   (workflowType = "start-period" ->
    Status cur = Healthy \/ still = false ->
    healthLog (snd out) = healthLog w /\
    healthStateLabel (snd out) = healthStateLabel w)).
Proof.
  intros Hspec Hprobe failed w1 out still cur.
  assert (Hout : out = (Err (ErrorWrap "health check probe failed: " err),
                        snd (updateHealthStatus container hc failed
                                                workflowType w1))).
  { subst out w1. unfold ExecuteHealthCheck. rewrite Hspec.
    destruct (probeHealthCheck container hc processSpec w) as [[e|r] w0];
      simpl in Hprobe; [|discriminate].
    injection Hprobe as ->. cbn [snd]. fold failed.
    destruct (updateHealthStatus container hc failed workflowType w0).
    reflexivity. }
  destruct (probeHealthCheck_frame container hc processSpec w)
    as (Flabel & Flog & _).
  fold w1 in Flabel, Flog.
  assert (Fcur : currentHealthOf w1 = cur).
  { unfold cur, currentHealthOf. rewrite Flabel. reflexivity. }
  split; [rewrite Hout; reflexivity|].
  split; [reflexivity|].
  split; [rewrite Hout; reflexivity|].
  intros (Hr & Hi & Hw) Hlog Hcap. rewrite Hout. cbn [snd].
  rewrite (updateHealthStatus_decision _ _ _ _ _ _ Hr Hi). cbv zeta.
  fold still. rewrite Fcur.
  assert (P : forall h w0,
             healthLog w0 = healthLog w ->
             (exists older,
                 healthLog (snd (persist container h failed w0))
                 = (older ++ [failed])%list) /\
             healthStateLabel (snd (persist container h failed w0)) = Some h).
  { intros h w0 Hw0.
    destruct (persist_writes container h failed w0 Hw Hlog) as (A & B).
    split; [| exact A]. rewrite B. now apply keepLast_app_last. }
  split; [| split].
  - intros ->. simpl.
    destruct still; simpl; [apply P; exact Flog|].
    destruct (Retries hc <=? _); apply P; exact Flog.
  - intros -> Hst Hstill. simpl. rewrite Hstill. simpl.
    destruct (HealthStatus_eqb (Status cur) Healthy) eqn:E.
    + apply HealthStatus_eqb_eq in E. contradiction.
    + simpl. apply P. exact Flog.
  - intros -> Hearly. simpl.
    assert (E : HealthStatus_eqb (Status cur) Healthy || negb still = true).
    { destruct Hearly as [-> | ->]; [reflexivity | apply orb_true_r]. }
    rewrite E. simpl. split; assumption.
Qed.

(** C7.  For every workflow tag other than "health-interval" and
    "start-period", [updateHealthStatus] returns an error and leaves the
    world as it was: the persisted state, the health log and the
    start-period timer are untouched.  When the state and the container
    info are read without error, the error is
    "unknown workflow type: <tag>". *)
Theorem unknown_workflow_no_mutation (container : Tick)
        (hcConfig : Healthcheck) (hcResult : HealthcheckResult)
        (workflowType : string) (w : World) :
  workflowType <> "health-interval" ->
  workflowType <> "start-period" ->
  (exists e,
      updateHealthStatus container hcConfig hcResult workflowType w
      = (Some e, w))
  /\
  (readFailure container = None ->
   (exists created, infoAnswer container = inr created) ->
   updateHealthStatus container hcConfig hcResult workflowType w
   = (Some (ErrorNew ("unknown workflow type: " ++ workflowType)), w)).
Proof.
  intros Hhi Hsp.
  apply String.eqb_neq in Hhi. apply String.eqb_neq in Hsp.
  unfold updateHealthStatus, readHealthStateFromLabels.
  rewrite Hhi, Hsp. split.
  - destruct (readFailure container); [eauto|].
    destruct (infoAnswer container); eauto.
  - intros -> [created ->]. reflexivity.
Qed.

(** C8.  For a [Test] whose first element is the shell tag: when the
    second element is missing or blank after trimming,
    [prepareProcessSpec] returns the error
    "no health check command specified", and the entry point returns it
    with the world unchanged (no process is spawned); otherwise the
    argument vector is ["/bin/sh", "-c", rest joined by spaces], in the
    process spec returned when the container's spec is read. *)
Theorem shell_string_resolution (container : Tick) (hcConfig : Healthcheck)
        (rest : list string) :
  CmdShell <> TestNone -> CmdShell <> CmdNone -> CmdShell <> Cmd ->
  Test hcConfig = CmdShell :: rest ->
  (rest = [] \/ TrimSpace (hd EmptyString rest) = EmptyString ->
   prepareProcessSpec container hcConfig
   = Err (ErrorNew "no health check command specified")
   /\
   forall workflowType w,
     ExecuteHealthCheck container hcConfig workflowType w
     = (Err (ErrorNew "no health check command specified"), w))
  /\
  (rest <> [] -> TrimSpace (hd EmptyString rest) <> EmptyString ->
   prepareProcessSpec container hcConfig
   = match specAnswer container with
     | inl err => Err (ErrorWrap "failed to get container spec: " err)
     | inr None => Panic "invalid memory address or nil pointer dereference"
     | inr (Some p) =>
         Ok (Some {| Args := ["/bin/sh"; "-c"; String.concat " " rest];
                     Env := Env p;
                     ProcessUser := ProcessUser p;
                     Cwd := Cwd p |})
     end).
Proof.
  intros H1 H2 H3 Htest.
  apply String.eqb_neq in H1. apply String.eqb_neq in H2.
  apply String.eqb_neq in H3.
  assert (Hprep : forall blank : bool,
             ((List.length (CmdShell :: rest) <? 2)%nat
              || (TrimSpace (nth 1 (CmdShell :: rest) EmptyString)
                  =? EmptyString)%string) = blank ->
             prepareProcessSpec container hcConfig
             = if blank then Err (ErrorNew "no health check command specified")
               else
                 match specAnswer container with
                 | inl err =>
                     Err (ErrorWrap "failed to get container spec: " err)
                 | inr None =>
                     Panic "invalid memory address or nil pointer dereference"
                 | inr (Some p) =>
                     Ok (Some {| Args := ["/bin/sh"; "-c";
                                          String.concat " " rest];
                                 Env := Env p;
                                 ProcessUser := ProcessUser p;
                                 Cwd := Cwd p |})
                 end).
  { intros blank Hblank. unfold prepareProcessSpec. rewrite Htest.
    rewrite H1, H2, H3, String.eqb_refl. cbn [orb].
    rewrite Hblank. destruct blank; reflexivity. }
  split.
  - intros Hb.
    assert (E : prepareProcessSpec container hcConfig
                = Err (ErrorNew "no health check command specified")).
    { apply (Hprep true). destruct Hb as [-> | Hb]; [reflexivity|].
      destruct rest as [|x rest']; [reflexivity|]. simpl in *.
      rewrite Hb. reflexivity. }
    split; [exact E|]. intros workflowType w.
    unfold ExecuteHealthCheck. rewrite E. reflexivity.
  - intros Hne Hnb. apply (Hprep false).
    destruct rest as [|x rest']; [contradiction|]. simpl in *.
    apply String.eqb_neq in Hnb. rewrite Hnb.
    destruct (List.length rest'); reflexivity.
Qed.

(** C9.  For a [Test] whose first element is a None tag, the entry
    point returns success and leaves the world as it was: no process is
    spawned, and neither the persisted state nor the health log is
    written. *)
Theorem none_tag_is_noop (container : Tick) (hc : Healthcheck)
        (workflowType : string) (w : World) (tag : string)
        (rest : list string) :
  Test hc = tag :: rest ->
  tag = TestNone \/ tag = CmdNone ->
  prepareProcessSpec container hc = Ok None /\
  ExecuteHealthCheck container hc workflowType w = (Ok tt, w).
Proof.
  intros Htest Htag.
  assert (E : prepareProcessSpec container hc = Ok None).
  { unfold prepareProcessSpec. rewrite Htest.
    destruct Htag as [-> | ->]; rewrite String.eqb_refl;
      [| rewrite orb_true_r]; reflexivity. }
  split; [exact E|].
  unfold ExecuteHealthCheck. rewrite E. reflexivity.
Qed.

(** C10.  When the probe fails with an infrastructure error, the value
    the entry point returns is the wrapped probe error whatever the
    state repository answers while the failed result is recorded: an
    error of [updateHealthStatus] is dropped, and the caller cannot tell
    from the return value whether the result was recorded. *)
Theorem persistence_error_discarded (container : Tick) (hc : Healthcheck)
        (workflowType : string) (w : World) (processSpec : Process)
        (err : error) :
  prepareProcessSpec container hc = Ok (Some processSpec) ->
  fst (probeHealthCheck container hc processSpec w) = inl err ->
  forall (rd : option error) (info : error + Time)
         (wrState wrLog : option error),
    fst (ExecuteHealthCheck (withPersistence container rd info wrState wrLog)
                            hc workflowType w)
    = Err (ErrorWrap "health check probe failed: " err).
Proof.
  intros Hspec Hprobe rd info wrState wrLog.
  set (c := withPersistence container rd info wrState wrLog).
  unfold ExecuteHealthCheck.
  change (prepareProcessSpec c hc) with (prepareProcessSpec container hc).
  rewrite Hspec.
  change (probeHealthCheck c hc processSpec w)
    with (probeHealthCheck container hc processSpec w).
  destruct (probeHealthCheck container hc processSpec w) as [[e|r] w0];
    simpl in Hprobe; [|discriminate].
  injection Hprobe as ->.
  destruct (updateHealthStatus c hc _ workflowType w0). reflexivity.
Qed.

(** *** More on the health state machine *)

Lemma wrap64_small (z : Z) : minInt64 <= z <= maxInt64 -> wrap64 z = z.
Proof.
  unfold wrap64, minInt64, maxInt64. intros H.
  rewrite Z.mod_small; lia.
Qed.

Lemma last_cons (A : Type) (x d : A) (l : list A) :
  last (x :: l) d = last l x.
Proof.
  revert x d. induction l as [|y l IH]; intros x d; [reflexivity|].
  change (last (x :: y :: l) d) with (last (y :: l) d).
  rewrite (IH y d), (IH y x). reflexivity.
Qed.

(** [persist] touches neither the process events nor the count of
    timer removals. *)
Lemma persist_frame (container : Tick) (h : HealthState)
      (r : HealthcheckResult) (w : World) :
  processEvents (snd (persist container h r w)) = processEvents w /\
  startPeriodTimerRemovals (snd (persist container h r w))
  = startPeriodTimerRemovals w.
Proof.
  unfold persist, writeHealthStateToLabels, writeHealthLog.
  destruct (writeStateFailure container); [split; reflexivity|].
  destruct (writeLogFailure container); split; reflexivity.
Qed.

(** What one call of [updateHealthStatus] can do to the state as the
    state machine sees it. *)
Lemma updateHealthStatus_cases (container : Tick) (hcConfig : Healthcheck)
      (hcResult : HealthcheckResult) (workflowType : string) (w : World) :
  let cur := currentHealthOf w in
  let cur' := currentHealthOf
                (snd (updateHealthStatus container hcConfig hcResult
                                         workflowType w)) in
  cur' = cur
  \/ (cur' = {| Status := Healthy; FailingStreak := 0 |} /\
      ExitCode hcResult = 0)
  \/ (workflowType = "health-interval" /\
      ExitCode hcResult <> 0 /\
      (exists created,
          infoAnswer container = inr created /\
          stillInStartPeriod hcConfig hcResult created = false) /\
      let streak := wrap64 (FailingStreak cur + 1) in
      cur' = {| Status := if Retries hcConfig <=? streak then Unhealthy
                          else Status cur;
                FailingStreak := streak |}).
Proof.
  cbv zeta.
  destruct (readFailure container) as [e|] eqn:Hr.
  { destruct (updateHealthStatus_early_failure container hcConfig hcResult
                workflowType w) as [e' E].
    - left. congruence.
    - rewrite E. left. reflexivity. }
  destruct (infoAnswer container) as [err|created] eqn:Hi.
  { destruct (updateHealthStatus_early_failure container hcConfig hcResult
                workflowType w) as [e' E].
    - right. eauto.
    - rewrite E. left. reflexivity. }
  rewrite (updateHealthStatus_decision _ _ _ _ _ _ Hr Hi). cbv zeta.
  assert (P : forall h w0,
             currentHealthOf w0 = currentHealthOf w ->
             currentHealthOf (snd (persist container h hcResult w0))
             = currentHealthOf w
             \/ currentHealthOf (snd (persist container h hcResult w0)) = h).
  { intros h w0 Hw0.
    destruct (currentHealthOf_persist container h hcResult w0) as [E | E];
      rewrite E; [left; exact Hw0 | right; reflexivity]. }
  destruct (workflowType =? "start-period")%string.
  { destruct (HealthStatus_eqb (Status (currentHealthOf w)) Healthy
              || negb (stillInStartPeriod hcConfig hcResult created)).
    - left. reflexivity.
    - destruct (ExitCode hcResult =? 0) eqn:Eexit.
      + apply Z.eqb_eq in Eexit.
        destruct (P {| Status := Healthy; FailingStreak := 0 |}
                    (RemoveStartPeriodTimer w) eq_refl) as [E | E];
          [left | right; left]; auto.
      + destruct (P (currentHealthOf w) w eq_refl) as [E | E]; left; exact E. }
  destruct (workflowType =? "health-interval")%string eqn:Ehi;
    [| left; reflexivity].
  apply String.eqb_eq in Ehi.
  destruct (ExitCode hcResult =? 0) eqn:Eexit.
  { apply Z.eqb_eq in Eexit.
    destruct (P {| Status := Healthy; FailingStreak := 0 |} w eq_refl)
      as [E | E]; [left | right; left]; auto. }
  apply Z.eqb_neq in Eexit.
  destruct (stillInStartPeriod hcConfig hcResult created) eqn:Estill; simpl.
  { destruct (P (currentHealthOf w) w eq_refl) as [E | E]; left; exact E. }
  assert (Hcreated : exists c, inr (A := error) created = inr c /\
                               stillInStartPeriod hcConfig hcResult c = false).
  { exists created. split; [reflexivity | exact Estill]. }
  destruct (Retries hcConfig <=? wrap64 (FailingStreak (currentHealthOf w) + 1));
    match goal with
    | |- context [persist container ?h hcResult w] =>
        destruct (P h w eq_refl) as [E | E]
    end;
    [left; exact E | right; right; auto
     | left; exact E | right; right; auto].
Qed.

(** X1.  Any call of [updateHealthStatus] - any workflow tag, any
    result, any answers of the collaborators - leaves the status as it
    was, or makes it Healthy, which needs exit code 0, or makes it
    Unhealthy, which needs the health-interval workflow and a failing
    probe that started after the start period. *)
Theorem status_transitions (container : Tick) (hcConfig : Healthcheck)
        (hcResult : HealthcheckResult) (workflowType : string) (w : World) :
  let before := Status (currentHealthOf w) in
  let after := Status (currentHealthOf
                         (snd (updateHealthStatus container hcConfig hcResult
                                                  workflowType w))) in
  after = before
  \/ (after = Healthy /\ ExitCode hcResult = 0)
  \/ (after = Unhealthy /\
      workflowType = "health-interval" /\
      ExitCode hcResult <> 0 /\
      exists created,
        infoAnswer container = inr created /\
        stillInStartPeriod hcConfig hcResult created = false).
Proof.
  cbv zeta.
  destruct (updateHealthStatus_cases container hcConfig hcResult
              workflowType w) as [E | [(E & H0) | (Hwf & Hx & Hc & E)]].
  - left. rewrite E. reflexivity.
  - right. left. rewrite E. auto.
  - cbv zeta in E. rewrite E. simpl.
    destruct (Retries hcConfig <=? _); [right; right; auto | left; reflexivity].
Qed.

(** X2.  The status Starting is never entered again: from a status
    other than Starting, no call of [updateHealthStatus] gives
    Starting. *)
Theorem starting_never_reentered (container : Tick) (hcConfig : Healthcheck)
        (hcResult : HealthcheckResult) (workflowType : string) (w : World) :
  Status (currentHealthOf w) <> Starting ->
  Status (currentHealthOf
            (snd (updateHealthStatus container hcConfig hcResult
                                     workflowType w))) <> Starting.
Proof.
  intros Hs.
  destruct (status_transitions container hcConfig hcResult workflowType w)
    as [E | [(E & _) | (E & _)]]; rewrite E; [exact Hs | | ]; discriminate.
Qed.

(** X3.  Unhealthy is left by a success only: from the status
    Unhealthy, a call of [updateHealthStatus] with a failing result
    gives Unhealthy again, under any workflow tag. *)
Theorem unhealthy_until_success (container : Tick) (hcConfig : Healthcheck)
        (hcResult : HealthcheckResult) (workflowType : string) (w : World) :
  Status (currentHealthOf w) = Unhealthy ->
  ExitCode hcResult <> 0 ->
  Status (currentHealthOf
            (snd (updateHealthStatus container hcConfig hcResult
                                     workflowType w))) = Unhealthy.
Proof.
  intros Hs Hx.
  destruct (status_transitions container hcConfig hcResult workflowType w)
    as [E | [(_ & E) | (E & _)]]; [congruence | contradiction | exact E].
Qed.

(** X4.  Health-interval workflow: after [n >= 1] consecutive counted
    failures from a state with streak [s >= 0] (no overflow of the
    64-bit counter), the streak is [s + n], and the status is Unhealthy
    when [Retries <= s + n] and the status before the failures
    otherwise. *)
Theorem consecutive_failures (hcConfig : Healthcheck) (steps : list Step)
        (w : World) :
  steps <> [] ->
  Forall (countedFailure hcConfig) steps ->
  0 <= FailingStreak (currentHealthOf w) ->
  FailingStreak (currentHealthOf w) + Z.of_nat (List.length steps)
  <= maxInt64 ->
  currentHealthOf
    (last (runUpdates hcConfig "health-interval" steps w) w)
  = let streak :=
      FailingStreak (currentHealthOf w) + Z.of_nat (List.length steps) in
    {| Status := if Retries hcConfig <=? streak then Unhealthy
                 else Status (currentHealthOf w);
       FailingStreak := streak |}.
Proof.
  revert w. induction steps as [|s rest IH]; intros w Hne Hall H0 Hmax;
    [contradiction|].
  inversion Hall as [|? ? Hs Hrest]; subst.
  cbn [runUpdates]. destruct s as [c r]. rewrite last_cons.
  pose proof (counted_failure_step hcConfig (c, r) w Hs) as E1.
  cbn [fst snd] in E1. cbv zeta in E1.
  set (w1 := snd (updateHealthStatus c hcConfig r "health-interval" w)) in *.
  cbn [List.length] in Hmax |- *. rewrite Nat2Z.inj_succ in Hmax |- *.
  pose proof (Nat2Z.is_nonneg (List.length rest)) as Hlen.
  rewrite wrap64_small in E1 by (unfold minInt64, maxInt64 in *; lia).
  destruct rest as [|s2 rest'].
  - cbn [runUpdates last List.length]. rewrite E1. reflexivity.
  - set (n := Z.of_nat (List.length (s2 :: rest'))) in *.
    rewrite IH; [| discriminate | exact Hrest
                 | rewrite E1; cbn [FailingStreak]; lia
                 | rewrite E1; cbn [FailingStreak]; fold n; lia].
    cbv zeta. fold n. rewrite E1. cbn [FailingStreak Status].
    replace (FailingStreak (currentHealthOf w) + 1 + n)
      with (FailingStreak (currentHealthOf w) + Z.succ n) by lia.
    f_equal.
    destruct (Retries hcConfig
              <=? FailingStreak (currentHealthOf w) + Z.succ n) eqn:A;
      [reflexivity|].
    apply Z.leb_gt in A.
    destruct (Retries hcConfig <=? FailingStreak (currentHealthOf w) + 1)
      eqn:B; [apply Z.leb_le in B; lia | reflexivity].
Qed.

(** X5.  Start-period workflow: once the status is Healthy, every
    further call, whatever the results and the answers of the
    collaborators, leaves the persisted state, the health log and the
    process events as they are. *)
Theorem start_period_healthy_is_terminal (hcConfig : Healthcheck)
        (steps : list Step) (w : World) :
  Status (currentHealthOf w) = Healthy ->
  Forall (fun w' => healthStateLabel w' = healthStateLabel w /\
                    healthLog w' = healthLog w /\
                    processEvents w' = processEvents w)
         (runUpdates hcConfig "start-period" steps w).
Proof.
  revert w. induction steps as [| [c r] rest IH]; intros w Hw;
    cbn [runUpdates]; [constructor|].
  assert (Hstep : let w1 := snd (updateHealthStatus c hcConfig r
                                                    "start-period" w) in
                  healthStateLabel w1 = healthStateLabel w /\
                  healthLog w1 = healthLog w /\
                  processEvents w1 = processEvents w).
  { cbv zeta. unfold updateHealthStatus, readHealthStateFromLabels.
    destruct (readFailure c); [auto|].
    destruct (infoAnswer c); [auto|].
    fold (currentHealthOf w). rewrite Hw. simpl. auto. }
  cbv zeta in Hstep. destruct Hstep as (A & B & C).
  constructor; [auto|].
  assert (Hw1 : Status (currentHealthOf
                          (snd (updateHealthStatus c hcConfig r
                                                   "start-period" w)))
                = Healthy).
  { unfold currentHealthOf at 1. rewrite A. exact Hw. }
  specialize (IH _ Hw1).
  eapply Forall_impl; [| exact IH].
  intros w' (A' & B' & C'). repeat split; congruence.
Qed.

(** X6.  Failures within the start period are not counted: under any
    workflow tag, for every sequence of failing probes that started
    within the start period, the state as the state machine sees it
    stays what it was after each call. *)
Theorem grace_period_ignores_failures (hcConfig : Healthcheck)
        (workflowType : string) (steps : list Step) (w : World) :
  Forall (graceFailure hcConfig) steps ->
  Forall (fun w' => currentHealthOf w' = currentHealthOf w)
         (runUpdates hcConfig workflowType steps w).
Proof.
  revert w. induction steps as [| [c r] rest IH]; intros w Hall;
    cbn [runUpdates]; [constructor|].
  inversion Hall as [|? ? (Hx & Hstill) Hrest]; subst. cbn [fst snd] in *.
  assert (Hstep : currentHealthOf
                    (snd (updateHealthStatus c hcConfig r workflowType w))
                  = currentHealthOf w).
  { destruct (updateHealthStatus_cases c hcConfig r workflowType w)
      as [E | [(_ & E) | (_ & _ & (created & Hi & Hf) & _)]];
      [exact E | contradiction |].
    rewrite (Hstill created Hi) in Hf. discriminate. }
  constructor; [exact Hstep|].
  specialize (IH (snd (updateHealthStatus c hcConfig r workflowType w)) Hrest).
  eapply Forall_impl; [| exact IH].
  intros w' E. cbv beta in E. congruence.
Qed.

(** X7.  The state is written before the log: under the
    health-interval workflow, when the state is read and written but the
    write of the log fails with [e], [updateHealthStatus] returns
    "failed to write health log: " wrapping [e], the log is unchanged,
    and the persisted state is the one written when the log write
    succeeds. *)
Theorem log_failure_keeps_new_state (container : Tick)
        (hcConfig : Healthcheck) (hcResult : HealthcheckResult) (w : World)
        (created : Time) (e : error) :
  stateRecorded container created ->
  writeLogFailure container = Some e ->
  let out := updateHealthStatus container hcConfig hcResult
                                "health-interval" w in
  let logged := withPersistence container None (inr created) None None in
  fst out = Some (ErrorWrap "failed to write health log: " e) /\
  healthLog (snd out) = healthLog w /\
  healthStateLabel (snd out)
  = healthStateLabel (snd (updateHealthStatus logged hcConfig hcResult
                                              "health-interval" w)) /\
  healthStateLabel (snd out) <> None.
Proof.
  intros (Hr & Hi & Hw) Hl. cbv zeta.
  rewrite (updateHealthStatus_decision _ _ _ _ _ _ Hr Hi).
  rewrite (updateHealthStatus_decision
             (withPersistence container None (inr created) None None)
             _ _ _ _ created eq_refl eq_refl).
  cbv zeta. simpl.
  assert (P : forall h,
             fst (persist container h hcResult w)
             = Some (ErrorWrap "failed to write health log: " e) /\
             healthLog (snd (persist container h hcResult w)) = healthLog w /\
             healthStateLabel (snd (persist container h hcResult w))
             = healthStateLabel
                 (snd (persist (withPersistence container None (inr created)
                                                None None) h hcResult w)) /\
             healthStateLabel (snd (persist container h hcResult w)) <> None).
  { intros h. unfold persist, writeHealthStateToLabels, writeHealthLog.
    rewrite Hw, Hl. simpl. repeat split. discriminate. }
  destruct (ExitCode hcResult =? 0); [apply P|].
  destruct (negb _); [| apply P].
  destruct (Retries hcConfig <=? _); apply P.
Qed.

(** X8.  Start-period workflow: when a probe started within the start
    period succeeds but the write of the state fails with [e], the
    start-period timer has been removed all the same: the call returns
    "failed to write health state to labels: " wrapping [e], and the
    world is the one before with one more call of
    [RemoveStartPeriodTimer]; the persisted state is not Healthy. *)
Theorem teardown_precedes_state_write (container : Tick)
        (hcConfig : Healthcheck) (hcResult : HealthcheckResult) (w : World)
        (created : Time) (e : error) :
  readFailure container = None ->
  infoAnswer container = inr created ->
  writeStateFailure container = Some e ->
  Status (currentHealthOf w) <> Healthy ->
  stillInStartPeriod hcConfig hcResult created = true ->
  ExitCode hcResult = 0 ->
  updateHealthStatus container hcConfig hcResult "start-period" w
  = (Some (ErrorWrap "failed to write health state to labels: " e),
     RemoveStartPeriodTimer w)
  /\
  Status (currentHealthOf (RemoveStartPeriodTimer w)) <> Healthy.
Proof.
  intros Hr Hi Hw Hs Hstill Hx.
  rewrite (updateHealthStatus_decision _ _ _ _ _ _ Hr Hi). cbv zeta. simpl.
  rewrite Hstill, Hx. simpl.
  destruct (HealthStatus_eqb (Status (currentHealthOf w)) Healthy) eqn:E.
  { apply HealthStatus_eqb_eq in E. contradiction. }
  simpl. rewrite (persist_state_failed _ _ _ _ e Hw). split; [reflexivity|].
  exact Hs.
Qed.

(** *** More on the probe executor and the entry point *)

(** The code of [prepareProcessSpec] after the switch, for the argument
    vector [args]. *)
Lemma prepared_from_args (container : Tick) (args : list string)
      (p : Process) :
  (if (List.length args <? 1)%nat || (hd EmptyString args =? EmptyString)%string
   then Err (ErrorNew "no health check command specified")
   else
     match specAnswer container with
     | inl err => Err (ErrorWrap "failed to get container spec: " err)
     | inr None => Panic "invalid memory address or nil pointer dereference"
     | inr (Some cp) =>
         Ok (Some {| Args := args; Env := Env cp;
                     ProcessUser := ProcessUser cp; Cwd := Cwd cp |})
     end) = Ok (Some p) ->
  Args p = args /\
  args <> [] /\
  hd EmptyString args <> EmptyString /\
  exists cp, specAnswer container = inr (Some cp) /\
             Env p = Env cp /\ ProcessUser p = ProcessUser cp /\
             Cwd p = Cwd cp.
Proof.
  destruct args as [|a rest]; [simpl; discriminate|].
  simpl. destruct (a =? EmptyString)%string eqn:Ea; [discriminate|].
  apply String.eqb_neq in Ea.
  destruct (specAnswer container) as [err | [cp|]]; try discriminate.
  intros H. injection H as <-. simpl.
  repeat split; try discriminate; eauto.
Qed.

(** X9.  Whatever the tag, a process spec returned by
    [prepareProcessSpec] has a non-empty argument vector whose first
    element is not empty, and its environment, user and working
    directory are those of the container's own process spec. *)
Theorem prepared_spec_well_formed (container : Tick)
        (hcConfig : Healthcheck) (p : Process) :
  prepareProcessSpec container hcConfig = Ok (Some p) ->
  Args p <> [] /\
  hd EmptyString (Args p) <> EmptyString /\
  exists cp, specAnswer container = inr (Some cp) /\
             Env p = Env cp /\ ProcessUser p = ProcessUser cp /\
             Cwd p = Cwd cp.
Proof.
  unfold prepareProcessSpec.
  destruct (Test hcConfig) as [|tag rest]; [discriminate|].
  destruct ((tag =? TestNone)%string || (tag =? CmdNone)%string);
    [discriminate|].
  assert (P : forall args,
             (if (List.length args <? 1)%nat
                 || (hd EmptyString args =? EmptyString)%string
              then Err (ErrorNew "no health check command specified")
              else
                match specAnswer container with
                | inl err =>
                    Err (ErrorWrap "failed to get container spec: " err)
                | inr None =>
                    Panic "invalid memory address or nil pointer dereference"
                | inr (Some cp) =>
                    Ok (Some {| Args := args; Env := Env cp;
                                ProcessUser := ProcessUser cp;
                                Cwd := Cwd cp |})
                end) = Ok (Some p) ->
             Args p <> [] /\
             hd EmptyString (Args p) <> EmptyString /\
             exists cp, specAnswer container = inr (Some cp) /\
                        Env p = Env cp /\ ProcessUser p = ProcessUser cp /\
                        Cwd p = Cwd cp).
  { intros args H.
    destruct (prepared_from_args container args p H) as (-> & A & B & C).
    auto. }
  destruct (tag =? Cmd)%string; [apply P|].
  destruct (tag =? CmdShell)%string; [| apply P].
  destruct ((List.length (tag :: rest) <? 2)%nat || _); [discriminate|].
  apply P.
Qed.

(** X10.  For a [Test] whose first element is the exec tag, the
    argument vector is the rest of [Test] as it is; when the rest is
    empty or starts with an empty string, the result is the error
    "no health check command specified". *)
Theorem exec_argv_resolution (container : Tick) (hcConfig : Healthcheck)
        (rest : list string) :
  Cmd <> TestNone -> Cmd <> CmdNone ->
  Test hcConfig = Cmd :: rest ->
  (rest = [] \/ hd EmptyString rest = EmptyString ->
   prepareProcessSpec container hcConfig
   = Err (ErrorNew "no health check command specified"))
  /\
  (rest <> [] -> hd EmptyString rest <> EmptyString ->
   prepareProcessSpec container hcConfig
   = match specAnswer container with
     | inl err => Err (ErrorWrap "failed to get container spec: " err)
     | inr None => Panic "invalid memory address or nil pointer dereference"
     | inr (Some cp) =>
         Ok (Some {| Args := rest; Env := Env cp;
                     ProcessUser := ProcessUser cp; Cwd := Cwd cp |})
     end).
Proof.
  intros H1 H2 Htest.
  apply String.eqb_neq in H1. apply String.eqb_neq in H2.
  unfold prepareProcessSpec. rewrite Htest, H1, H2, String.eqb_refl.
  cbn [orb]. split.
  - intros [-> | Hb]; [reflexivity|].
    destruct rest as [|a rest']; [reflexivity|]. simpl in *.
    rewrite Hb. reflexivity.
  - intros Hne Hnb. destruct rest as [|a rest']; [contradiction|].
    simpl in *. apply String.eqb_neq in Hnb. rewrite Hnb. reflexivity.
Qed.

(** X11.  For a [Test] whose first element is none of the four tags
    and is not the empty string, the whole of [Test] is the argument
    vector, first element included. *)
Theorem implicit_argv_resolution (container : Tick) (hcConfig : Healthcheck)
        (tag : string) (rest : list string) :
  tag <> TestNone -> tag <> CmdNone -> tag <> Cmd -> tag <> CmdShell ->
  tag <> EmptyString ->
  Test hcConfig = tag :: rest ->
  prepareProcessSpec container hcConfig
  = match specAnswer container with
    | inl err => Err (ErrorWrap "failed to get container spec: " err)
    | inr None => Panic "invalid memory address or nil pointer dereference"
    | inr (Some cp) =>
        Ok (Some {| Args := tag :: rest; Env := Env cp;
                    ProcessUser := ProcessUser cp; Cwd := Cwd cp |})
    end.
Proof.
  intros H1 H2 H3 H4 Hne Htest.
  apply String.eqb_neq in H1. apply String.eqb_neq in H2.
  apply String.eqb_neq in H3. apply String.eqb_neq in H4.
  apply String.eqb_neq in Hne.
  unfold prepareProcessSpec. rewrite Htest, H1, H2, H3, H4.
  cbn [orb]. simpl. rewrite Hne. reflexivity.
Qed.

(** [updateHealthStatus] touches no process event. *)
Lemma updateHealthStatus_events (container : Tick) (hcConfig : Healthcheck)
      (hcResult : HealthcheckResult) (workflowType : string) (w : World) :
  processEvents (snd (updateHealthStatus container hcConfig hcResult
                                         workflowType w))
  = processEvents w.
Proof.
  unfold updateHealthStatus, readHealthStateFromLabels.
  destruct (readFailure container); [reflexivity|].
  destruct (infoAnswer container); [reflexivity|].
  repeat match goal with
         | |- context [if ?b then _ else _] => destruct b
         end;
    try reflexivity;
    match goal with
    | |- context [persist container ?h ?r ?w0] =>
        destruct (persist_frame container h r w0) as (E & _); rewrite E
    end; reflexivity.
Qed.

(** X12.  One invocation of the entry point only appends to the
    process events, and what it appends is one of five sequences:
    nothing (no command resolved, or [task.Exec] failed); the process
    created; created and started; the full run of a probe that exited;
    the full run of a probe that timed out, the only one with a kill.
    So at most one process is created, a probe is killed only on
    timeout, and the IO of a probe that was waited for is always
    closed. *)
Theorem process_events_of_invocation (container : Tick) (hc : Healthcheck)
        (workflowType : string) (w : World) :
  exists evs,
    processEvents (snd (ExecuteHealthCheck container hc workflowType w))
    = (processEvents w ++ evs)%list /\
    (List.length (filter isExec evs) <= 1)%nat /\
    (In EvKill evs <->
     exists p captured,
       prepareProcessSpec container hc = Ok (Some p) /\
       probeBehaviour container = TimeoutFirst captured) /\
    (In EvWait evs -> In EvIOClose evs) /\
    (evs <> [] -> exists p, prepareProcessSpec container hc = Ok (Some p)).
Proof.
  unfold ExecuteHealthCheck.
  destruct (prepareProcessSpec container hc) as [[p|] | e | m] eqn:Hp.
  2, 3, 4:
    exists []; cbn [snd]; rewrite app_nil_r;
    split; [reflexivity|]; split; [simpl; lia|];
    split; [split; [intros [] | intros (? & ? & H & _); discriminate H]|];
    split; [intros [] | intros H; exfalso; apply H; reflexivity].
  unfold probeHealthCheck.
  destruct (probeBehaviour container) as [e | e | e | cap | code cap] eqn:Hb;
    cbv iota beta;
    match goal with
    | |- context [updateHealthStatus container hc ?r workflowType ?w1] =>
        pose proof (updateHealthStatus_events container hc r workflowType w1)
          as Hev;
        destruct (updateHealthStatus container hc r workflowType w1)
          as [[err|] w2]
    end;
    cbn [snd] in *; rewrite Hev; unfold emit; cbn [processEvents].
  all: first [ exists []; rewrite app_nil_r; split; [reflexivity|]
             | eexists; split; [reflexivity|] ].
  all: split; [simpl; lia|].
  all: split;
    [ split;
      [ simpl; intros H;
        repeat (destruct H as [H | H]; try discriminate H);
        try contradiction; eauto
      | intros (? & ? & _ & H); try discriminate H; simpl; tauto ]
    | split;
      [ simpl; intros H;
        repeat (destruct H as [H | H]; try discriminate H);
        try contradiction; tauto
      | intros _; eauto ] ].
Qed.

Lemma persist_succeeded (container : Tick) (h : HealthState)
      (r : HealthcheckResult) (w : World) :
  fst (persist container h r w) = None ->
  healthStateLabel (snd (persist container h r w)) = Some h /\
  healthLog (snd (persist container h r w))
  = keepLast MaxLogEntries (healthLog w ++ [r]).
Proof.
  unfold persist, writeHealthStateToLabels, writeHealthLog.
  destruct (writeStateFailure container); [discriminate|].
  destruct (writeLogFailure container); [discriminate|].
  intros _. split; reflexivity.
Qed.

(** X13.  Health-interval workflow: when the entry point returns
    success for a resolved command, the probe did return a result, that
    result - with the time taken before the probe as its start - is
    the newest entry of the health log (a log that keeps at least one
    entry), and a health state is persisted. *)
Theorem success_means_recorded (container : Tick) (hc : Healthcheck)
        (w : World) (p : Process) :
  (0 < MaxLogEntries)%nat ->
  prepareProcessSpec container hc = Ok (Some p) ->
  fst (ExecuteHealthCheck container hc "health-interval" w) = Ok tt ->
  let w' := snd (ExecuteHealthCheck container hc "health-interval" w) in
  exists r older,
    fst (probeHealthCheck container hc p w) = inr r /\
    healthLog w'
    = (older ++ [ {| Start := nowStart container; End_ := End_ r;
                     ExitCode := ExitCode r; Output := Output r |} ])%list /\
    healthStateLabel w' <> None.
Proof.
  intros Hcap Hp. unfold ExecuteHealthCheck. rewrite Hp.
  destruct (probeHealthCheck container hc p w) as [[e|r] w1].
  { destruct (updateHealthStatus container hc _ "health-interval" w1).
    discriminate. }
  set (r' := {| Start := nowStart container; End_ := End_ r;
                ExitCode := ExitCode r; Output := Output r |}).
  unfold updateHealthStatus, readHealthStateFromLabels.
  destruct (readFailure container); [discriminate|].
  destruct (infoAnswer container) as [err|created]; [discriminate|].
  simpl.
  assert (P : forall h,
             fst (let (o, w2) := persist container h r' w1 in
                  match o with
                  | Some err =>
                      (Err (ErrorWrap "failed to update health status: " err),
                       w2)
                  | None => (Ok tt, w2)
                  end) = Ok tt ->
             exists r0 older,
               inr (A := error) r = inr r0 /\
               healthLog (snd (let (o, w2) := persist container h r' w1 in
                               match o with
                               | Some err =>
                                   (Err (ErrorWrap
                                           "failed to update health status: "
                                           err), w2)
                               | None => (Ok tt, w2)
                               end))
               = (older ++ [ {| Start := nowStart container; End_ := End_ r0;
                                ExitCode := ExitCode r0;
                                Output := Output r0 |} ])%list /\
               healthStateLabel
                 (snd (let (o, w2) := persist container h r' w1 in
                       match o with
                       | Some err =>
                           (Err (ErrorWrap "failed to update health status: "
                                           err), w2)
                       | None => (Ok tt, w2)
                       end)) <> None).
  { intros h. pose proof (persist_succeeded container h r' w1) as Q.
    destruct (persist container h r' w1) as [[err|] w2]; [discriminate|].
    intros _. cbn [fst snd] in *. destruct (Q eq_refl) as (A & B).
    destruct (keepLast_app_last _ MaxLogEntries (healthLog w1) r' Hcap)
      as [older Hk].
    exists r, older. rewrite B, Hk, A.
    repeat split. discriminate. }
  destruct (ExitCode r =? 0); [apply P|].
  destruct (negb _); [| apply P].
  destruct (Retries hc <=? _); apply P.
Qed.

Lemma app_nonempty_neq (A : Type) (l evs : list A) :
  evs <> [] -> (l ++ evs)%list <> l.
Proof.
  intros Hne E. apply (f_equal (@List.length A)) in E.
  rewrite length_app in E. destruct evs; [contradiction | simpl in E; lia].
Qed.

(** X14.  Start-period workflow with a Healthy persisted status: the
    probe is run all the same (a process is created in the task), and
    when it returns a result the entry point returns success, removes
    the start-period timer, and records nothing - the persisted state
    and the health log are unchanged. *)
Theorem start_period_probe_runs_when_healthy (container : Tick)
        (hc : Healthcheck) (w : World) (p : Process)
        (r : HealthcheckResult) (created : Time) :
  prepareProcessSpec container hc = Ok (Some p) ->
  fst (probeHealthCheck container hc p w) = inr r ->
  readFailure container = None ->
  infoAnswer container = inr created ->
  Status (currentHealthOf w) = Healthy ->
  let out := ExecuteHealthCheck container hc "start-period" w in
  out = (Ok tt, RemoveStartPeriodTimer (snd (probeHealthCheck container hc p w)))
  /\ healthStateLabel (snd out) = healthStateLabel w
  /\ healthLog (snd out) = healthLog w
  /\ processEvents (snd out) <> processEvents w.
Proof.
  intros Hp Hprobe Hr Hi Hs. cbv zeta.
  unfold ExecuteHealthCheck. rewrite Hp.
  assert (Hw1 : let w1 := snd (probeHealthCheck container hc p w) in
                healthStateLabel w1 = healthStateLabel w /\
                healthLog w1 = healthLog w /\
                processEvents w1 <> processEvents w).
  { cbv zeta. revert Hprobe. unfold probeHealthCheck.
    destruct (probeBehaviour container); cbn [fst snd]; try discriminate;
      intros _; unfold emit; cbn [healthStateLabel healthLog processEvents];
      (repeat split); apply app_nonempty_neq; discriminate. }
  cbv zeta in Hw1. destruct Hw1 as (A & B & C).
  destruct (probeHealthCheck container hc p w) as [[e|r0] w1];
    cbn [fst snd] in *; [discriminate|].
  rewrite (updateHealthStatus_decision _ _ _ _ _ _ Hr Hi). cbv zeta. simpl.
  unfold currentHealthOf in Hs |- *. rewrite A.
  rewrite Hs. simpl. repeat split; assumption.
Qed.

End HealthCheck.

(** ** Properties of the systemd timers *)

Section ManagerFacts.

Import Manager.

Variable HealthCheckFromJSON : string -> option Healthcheck.
Variable DefaultStartInterval : Z.
Variable TrimSpace : string -> string.
Variable DurationString : Z -> string.

Local Abbreviation CreateHealthCheckTimers :=
  (Manager.CreateHealthCheckTimers HealthCheckFromJSON DefaultStartInterval
                                   TrimSpace DurationString).
Local Abbreviation StartHealthCheckTimers :=
  (Manager.StartHealthCheckTimers HealthCheckFromJSON).
Local Abbreviation extractHealthcheck :=
  (Manager.extractHealthcheck HealthCheckFromJSON).

Lemma string_length_append (s t : string) :
  String.length (s ++ t) = (String.length s + String.length t)%nat.
Proof. induction s as [|c s IH]; simpl; [reflexivity | now rewrite IH]. Qed.

Lemma string_append_assoc (s t u : string) :
  ((s ++ t) ++ u = s ++ t ++ u)%string.
Proof. induction s as [|c s IH]; simpl; [reflexivity | now rewrite IH]. Qed.

Lemma string_append_inj_l (s a b : string) :
  (s ++ a = s ++ b)%string -> a = b.
Proof.
  induction s as [|c s IH]; simpl; intros H; [exact H|].
  injection H as H. exact (IH H).
Qed.

Lemma string_append_inj_r (a b s : string) :
  (a ++ s = b ++ s)%string -> a = b.
Proof.
  revert b. induction a as [|c a IH]; intros [|d b] H; simpl in H.
  - reflexivity.
  - apply (f_equal String.length) in H. simpl in H.
    rewrite string_length_append in H. lia.
  - apply (f_equal String.length) in H. simpl in H.
    rewrite string_length_append in H. lia.
  - injection H as -> H. f_equal. exact (IH b H).
Qed.

Lemma string_append_neq_self (s t : string) :
  t <> EmptyString -> (s ++ t)%string <> s.
Proof.
  intros Ht H. apply (f_equal String.length) in H.
  rewrite string_length_append in H.
  destruct t; [contradiction | simpl in H; lia].
Qed.

(** X15.  Bare unit names: for one container the start-period
    workflow and the health-interval workflow get different unit
    names, and for one workflow two containers with the same unit name
    are the same container; a name that is not bare starts with the
    bare name. *)
Theorem unit_names_distinct (id id' workflowType random random' : string) :
  hcUnitNameWithType id "start-period" true random
  <> hcUnitNameWithType id "health-interval" true random'
  /\
  (hcUnitNameWithType id workflowType true random
   = hcUnitNameWithType id' workflowType true random' -> id = id')
  /\
  hcUnitNameWithType id workflowType false random
  = (hcUnitNameWithType id workflowType true random' ++ "-" ++ random)%string.
Proof.
  unfold hcUnitNameWithType. simpl. repeat split.
  - apply string_append_neq_self. discriminate.
  - destruct (workflowType =? "start-period")%string; [|auto].
    apply string_append_inj_r.
Qed.

(** What [removeTimerForWorkflow] leaves when systemd is used and the
    connection is made. *)
Lemma removeTimerForWorkflow_connected (host : Host)
      (id workflowType : string) (calls : list SystemdCall) :
  systemdAvailable host = true ->
  disableHCSystemd host <> "true" ->
  dbusConnect host workflowType = None ->
  removeTimerForWorkflow host id workflowType calls
  = (None,
     (calls ++
      [StopUnit (hcUnitNameWithType id workflowType true (randomHex host)
                                    ++ ".timer") "ignore-dependencies";
       StopUnit (hcUnitNameWithType id workflowType true (randomHex host)
                                    ++ ".service") "ignore-dependencies";
       ResetFailedUnit (hcUnitNameWithType id workflowType true
                                           (randomHex host) ++ ".service")])%list).
Proof.
  intros Ha Hd Hc. unfold removeTimerForWorkflow.
  apply String.eqb_neq in Hd. rewrite Ha, Hd, Hc. reflexivity.
Qed.

(** [removeTimerForWorkflow] only appends calls. *)
Lemma removeTimerForWorkflow_extends (host : Host)
      (id workflowType : string) (calls : list SystemdCall) :
  exists more,
    snd (removeTimerForWorkflow host id workflowType calls)
    = (calls ++ more)%list.
Proof.
  unfold removeTimerForWorkflow.
  destruct (negb (systemdAvailable host) || _).
  - exists []. now rewrite app_nil_r.
  - destruct (dbusConnect host workflowType).
    + exists []. now rewrite app_nil_r.
    + eexists. reflexivity.
Qed.

(** X16.  [RemoveAllHealthCheckTimers] never returns an error.  It
    makes no call when systemd is unavailable or disabled.  The removal
    of the start-period timer does not depend on that of the
    health-interval timer: when its own connection is made, the
    start-period timer and service are stopped and the service's failed
    state is reset, whether or not the health-interval connection
    failed. *)
Theorem remove_all_never_fails (host : Host) (id : string)
        (calls : list SystemdCall) :
  let out := RemoveAllHealthCheckTimers host id calls in
  fst out = None
  /\
  (systemdAvailable host = false \/ disableHCSystemd host = "true" ->
   snd out = calls)
  /\
  (systemdAvailable host = true ->
   disableHCSystemd host <> "true" ->
   dbusConnect host "start-period" = None ->
   exists before,
     snd out
     = (before ++ [StopUnit (id ++ "-start.timer") "ignore-dependencies";
                   StopUnit (id ++ "-start.service") "ignore-dependencies";
                   ResetFailedUnit (id ++ "-start.service")])%list
     /\
     (dbusConnect host "health-interval" = None ->
      before = (calls ++ [StopUnit (id ++ ".timer") "ignore-dependencies";
                          StopUnit (id ++ ".service") "ignore-dependencies";
                          ResetFailedUnit (id ++ ".service")])%list)
     /\
     (dbusConnect host "health-interval" <> None -> before = calls)).
Proof.
  cbv zeta.
  unfold RemoveAllHealthCheckTimers, RemoveHealthIntervalTimer,
    RemoveStartPeriodTimer.
  split.
  { destruct (removeTimerForWorkflow host id "health-interval" calls)
      as [o1 c1].
    destruct (removeTimerForWorkflow host id "start-period" c1) as [o2 c2].
    reflexivity. }
  split.
  { intros Hoff.
    assert (E : negb (systemdAvailable host)
                || (disableHCSystemd host =? "true")%string = true).
    { destruct Hoff as [-> | ->]; [reflexivity|].
      rewrite String.eqb_refl. apply orb_true_r. }
    unfold removeTimerForWorkflow. rewrite E. reflexivity. }
  intros Ha Hd Hsp.
  destruct (removeTimerForWorkflow host id "health-interval" calls)
    as [o1 c1] eqn:E1.
  rewrite (removeTimerForWorkflow_connected host id "start-period" c1 Ha Hd Hsp).
  unfold hcUnitNameWithType. simpl. rewrite !string_append_assoc. simpl.
  exists c1. split; [reflexivity|]. split.
  - intros Hhi.
    rewrite (removeTimerForWorkflow_connected host id "health-interval"
               calls Ha Hd Hhi) in E1.
    injection E1 as _ <-. reflexivity.
  - intros Hhi. unfold removeTimerForWorkflow in E1.
    apply String.eqb_neq in Hd. rewrite Ha, Hd in E1. simpl in E1.
    destruct (dbusConnect host "health-interval"); [| contradiction].
    injection E1 as _ <-. reflexivity.
Qed.

Lemma timersCreated_app (calls more : list SystemdCall) :
  timersCreated (calls ++ more)
  = (timersCreated calls ++ timersCreated more)%list.
Proof.
  induction calls as [|c calls IH]; [reflexivity|].
  destruct c as [argv | | |]; simpl; try exact IH.
  destruct (unitOfCommand argv); simpl; now rewrite IH.
Qed.

(** The timers named by the runs of [systemd-run] after
    [createTimerForWorkflow] are those named before and, when
    [systemd-run] was run, the timer of the workflow. *)
Lemma createTimerForWorkflow_timers (host : Host) (id : string)
      (hc : Healthcheck) (workflowType interval : string)
      (calls : list SystemdCall) :
  let out := createTimerForWorkflow TrimSpace host id hc workflowType
                                    interval calls in
  (dbusConnect host workflowType = None ->
   timersCreated (snd out)
   = (timersCreated calls
        ++ [(hcUnitNameWithType id workflowType true (randomHex host)
               ++ ".timer")%string])%list)
  /\
  (dbusConnect host workflowType <> None ->
   snd out = calls /\ fst out <> None).
Proof.
  cbv zeta. unfold createTimerForWorkflow.
  destruct (dbusConnect host workflowType) as [e|].
  { split; [discriminate|]. intros _. split; [reflexivity | discriminate]. }
  split; [| intros H; contradiction].
  intros _.
  match goal with
  | |- context [systemdRun host ?cmd] =>
      assert (U : unitOfCommand cmd
                  = Some (hcUnitNameWithType id workflowType true
                                             (randomHex host)
                            ++ ".timer")%string);
      [| destruct (systemdRun host cmd) as [[err out]|];
         cbn [snd]; rewrite timersCreated_app; cbn [timersCreated];
         rewrite U; reflexivity ]
  end.
  destruct (isRootless host), (negb (pathEnv host =? EmptyString)%string),
    (workflowType =? "health-interval")%string,
    (workflowType =? "start-period")%string, (debugEnabled host);
    reflexivity.
Qed.

(** [createTimerForWorkflow] when the connection is made and
    [systemd-run] succeeds: one run, naming the timer of the
    workflow. *)
Lemma createTimerForWorkflow_quiet (host : Host) (id : string)
      (hc : Healthcheck) (workflowType interval : string)
      (calls : list SystemdCall) :
  dbusConnect host workflowType = None ->
  (forall argv, systemdRun host argv = None) ->
  exists cmd,
    createTimerForWorkflow TrimSpace host id hc workflowType interval calls
    = (None, (calls ++ [SystemdRun cmd])%list) /\
    unitOfCommand cmd
    = Some (hcUnitNameWithType id workflowType true (randomHex host)
              ++ ".timer")%string.
Proof.
  intros Hc Hrun. unfold createTimerForWorkflow. rewrite Hc, Hrun.
  eexists. split; [reflexivity|].
  destruct (isRootless host), (negb (pathEnv host =? EmptyString)%string),
    (workflowType =? "health-interval")%string,
    (workflowType =? "start-period")%string, (debugEnabled host);
    reflexivity.
Qed.

(** The first argument of a [systemd-run] command of
    [createTimerForWorkflow]: "--user" when rootless, else the PATH
    setting when PATH is not empty, else "--unit". *)
Lemma createTimerForWorkflow_runs (host : Host) (id : string)
      (hc : Healthcheck) (workflowType interval : string)
      (calls : list SystemdCall) (argv : list string) :
  In (SystemdRun argv)
     (snd (createTimerForWorkflow TrimSpace host id hc workflowType
                                  interval calls)) ->
  In (SystemdRun argv) calls
  \/ hd EmptyString argv
     = (if isRootless host then "--user"
        else if negb (pathEnv host =? EmptyString)%string
             then ("--setenv=PATH=" ++ pathEnv host)%string
             else "--unit").
Proof.
  unfold createTimerForWorkflow.
  destruct (dbusConnect host workflowType) as [e|]; [left; assumption|].
  match goal with
  | |- context [systemdRun host ?cmd] =>
      assert (U : hd EmptyString cmd
                  = (if isRootless host then "--user"
                     else if negb (pathEnv host =? EmptyString)%string
                          then ("--setenv=PATH=" ++ pathEnv host)%string
                          else "--unit"));
      [| destruct (systemdRun host cmd) as [[err out]|]; cbn [snd];
         intros Hin; apply in_app_or in Hin;
         (destruct Hin as [Hin | [Hin | []]];
          [left; exact Hin | right; injection Hin as <-; exact U]) ]
  end.
  destruct (isRootless host), (negb (pathEnv host =? EmptyString)%string),
    (workflowType =? "health-interval")%string,
    (workflowType =? "start-period")%string, (debugEnabled host);
    reflexivity.
Qed.

(** X17.  On a host that is not rootless, what
    [CreateHealthCheckTimers] creates, [RemoveAllHealthCheckTimers]
    stops: no [systemd-run] command of [CreateHealthCheckTimers] starts
    with "--user", so the timers are created in the system manager, and
    every timer unit named by such a command for a container is
    stopped, on the system bus, by [RemoveAllHealthCheckTimers] for the
    same container, when systemd is used and the connections are
    made. *)
Theorem created_timers_are_removed (creator remover : Host)
        (calls : list SystemdCall) (unit : string) :
  isRootless creator = false ->
  systemdAvailable remover = true ->
  disableHCSystemd remover <> "true" ->
  dbusConnect remover "health-interval" = None ->
  dbusConnect remover "start-period" = None ->
  (forall argv,
      In (SystemdRun argv) (snd (CreateHealthCheckTimers creator [])) ->
      hd EmptyString argv <> "--user")
  /\
  (In unit (timersCreated (snd (CreateHealthCheckTimers creator []))) ->
   In (StopUnit unit "ignore-dependencies")
      (snd (RemoveAllHealthCheckTimers remover (containerID creator) calls))).
Proof.
  intros Hroot Ha Hd Hhi Hsp. split.
  { assert (Hhead : forall id hc wf iv cs argv,
               In (SystemdRun argv)
                  (snd (createTimerForWorkflow TrimSpace creator id hc wf
                                               iv cs)) ->
               In (SystemdRun argv) cs \/ hd EmptyString argv <> "--user").
    { intros id hc wf iv cs argv Hin.
      destruct (createTimerForWorkflow_runs creator id hc wf iv cs argv Hin)
        as [H | H]; [left; exact H | right].
      rewrite H, Hroot.
      destruct (negb (pathEnv creator =? EmptyString)%string);
        simpl; discriminate. }
    intros argv.
    unfold Manager.CreateHealthCheckTimers,
      Manager.createHealthIntervalTimer, Manager.createStartPeriodTimer.
    destruct (extractHealthcheck creator) as [hc|]; [| intros []].
    destruct (shouldSkipHealthCheckSystemd creator (Some hc)); [intros []|].
    pose proof (Hhead (containerID creator) hc "health-interval"
                      (DurationString (Interval hc)) [] argv) as H1.
    destruct (createTimerForWorkflow TrimSpace creator (containerID creator)
                hc "health-interval" (DurationString (Interval hc)) [])
      as [[e1|] c1]; cbn [fst snd] in *.
    { intros Hin. destruct (H1 Hin) as [[] | N]; exact N. }
    destruct (StartPeriod hc =? 0).
    { intros Hin. destruct (H1 Hin) as [[] | N]; exact N. }
    match goal with
    | |- context [createTimerForWorkflow TrimSpace creator ?id hc
                                         "start-period" ?iv c1] =>
        pose proof (Hhead id hc "start-period" iv c1 argv) as H2;
        destruct (createTimerForWorkflow TrimSpace creator id hc
                                         "start-period" iv c1)
          as [[e2|] c2]
    end; cbn [fst snd] in *;
      intros Hin; destruct (H2 Hin) as [Hc1 | N]; try exact N;
      destruct (H1 Hc1) as [[] | N]; exact N. }
  intros Hin.
  assert (Hstop :
            forall wf, wf = "health-interval" \/ wf = "start-period" ->
              In (StopUnit (hcUnitNameWithType (containerID creator) wf true
                                               (randomHex creator)
                              ++ ".timer") "ignore-dependencies")
                 (snd (RemoveAllHealthCheckTimers
                         remover (containerID creator) calls))).
  { intros wf Hwf.
    unfold RemoveAllHealthCheckTimers, RemoveHealthIntervalTimer,
      RemoveStartPeriodTimer.
    rewrite (removeTimerForWorkflow_connected _ _ _ _ Ha Hd Hhi).
    rewrite (removeTimerForWorkflow_connected _ _ _ _ Ha Hd Hsp).
    cbn [snd]. apply in_or_app.
    destruct Hwf as [-> | ->].
    - left. apply in_or_app. right. left. reflexivity.
    - right. left. reflexivity. }
  revert Hin. unfold Manager.CreateHealthCheckTimers,
    Manager.createHealthIntervalTimer, Manager.createStartPeriodTimer.
  destruct (extractHealthcheck creator) as [hc|]; [| intros []].
  destruct (shouldSkipHealthCheckSystemd creator (Some hc)); [intros []|].
  pose proof (createTimerForWorkflow_timers creator (containerID creator) hc
                "health-interval" (DurationString (Interval hc)) [])
    as (A1 & B1).
  destruct (createTimerForWorkflow TrimSpace creator (containerID creator) hc
              "health-interval" (DurationString (Interval hc)) [])
    as [[e1|] c1] eqn:E1; cbn [fst snd] in *.
  { destruct (dbusConnect creator "health-interval") eqn:C.
    - destruct B1 as (-> & _); [discriminate|]. intros [].
    - rewrite (A1 eq_refl). simpl. intros [<- | []].
      apply Hstop. left. reflexivity. }
  assert (H1 : forall u, In u (timersCreated c1) ->
                         In (StopUnit u "ignore-dependencies")
                            (snd (RemoveAllHealthCheckTimers
                                    remover (containerID creator) calls))).
  { destruct (dbusConnect creator "health-interval") eqn:C.
    - destruct B1 as (_ & N); [discriminate|]. contradiction.
    - rewrite (A1 eq_refl). simpl. intros u [<- | []].
      apply Hstop. left. reflexivity. }
  destruct (StartPeriod hc =? 0); [apply H1|].
  match goal with
  | |- context [createTimerForWorkflow TrimSpace creator ?id hc
                                       "start-period" ?iv c1] =>
      pose proof (createTimerForWorkflow_timers creator id hc
                    "start-period" iv c1) as (A2 & B2);
      destruct (createTimerForWorkflow TrimSpace creator id hc
                                       "start-period" iv c1)
        as [[e2|] c2] eqn:E2
  end; cbn [fst snd] in *.
  all: destruct (dbusConnect creator "start-period") eqn:C;
    [ destruct B2 as (-> & N); [discriminate|];
      first [ exact (H1 unit) | contradiction ]
    | rewrite (A2 eq_refl); intros Hin; apply in_app_or in Hin;
      destruct Hin as [Hin | [<- | []]];
      [ apply H1; exact Hin | apply Hstop; right; reflexivity ] ].
Qed.

(** X18.  On a host where every call succeeds and the timers are not
    skipped, the health-interval timer is created and its service
    started; the start-period timer is created when [StartPeriod] is
    not 0, while its service is started when [StartPeriod] is greater
    than 0. *)
Theorem start_period_timer_created_and_started (host : Host)
        (hc : Healthcheck) :
  extractHealthcheck host = Some hc ->
  shouldSkipHealthCheckSystemd host (Some hc) = false ->
  (forall workflowType, dbusConnect host workflowType = None) ->
  (forall argv, systemdRun host argv = None) ->
  (forall unit, restartUnit host unit = inr "done") ->
  let created := timersCreated (snd (CreateHealthCheckTimers host [])) in
  let started := snd (StartHealthCheckTimers host []) in
  In (containerID host ++ ".timer")%string created /\
  In (RestartUnit (containerID host ++ ".service") "fail") started /\
  (In (containerID host ++ "-start.timer")%string created
   <-> StartPeriod hc <> 0) /\
  (In (RestartUnit (containerID host ++ "-start.service") "fail") started
   <-> 0 < StartPeriod hc).
Proof.
  intros Hx Hskip Hc Hrun Hrestart. cbv zeta.
  assert (Hcreated :
            timersCreated (snd (CreateHealthCheckTimers host []))
            = ((containerID host ++ ".timer")%string
                 :: if StartPeriod hc =? 0 then []
                    else [(containerID host ++ "-start.timer")%string])).
  { unfold Manager.CreateHealthCheckTimers,
      Manager.createHealthIntervalTimer, Manager.createStartPeriodTimer.
    rewrite Hx, Hskip.
    destruct (createTimerForWorkflow_quiet host (containerID host) hc
                "health-interval" (DurationString (Interval hc)) []
                (Hc _) Hrun) as (cmd1 & -> & U1).
    destruct (StartPeriod hc =? 0).
    - cbn [snd]. simpl. rewrite U1. reflexivity.
    - match goal with
      | |- context [createTimerForWorkflow TrimSpace host ?id hc
                                           "start-period" ?iv ?c1] =>
          destruct (createTimerForWorkflow_quiet host id hc
                      "start-period" iv c1 (Hc _) Hrun) as (cmd2 & -> & U2)
      end.
      cbn [snd]. simpl. rewrite U1, U2.
      unfold hcUnitNameWithType. simpl.
      rewrite string_append_assoc. reflexivity. }
  assert (Hstarted :
            snd (StartHealthCheckTimers host [])
            = (RestartUnit (containerID host ++ ".service") "fail"
                 :: if 0 <? StartPeriod hc
                    then [RestartUnit (containerID host ++ "-start.service")
                                      "fail"]
                    else [])).
  { unfold Manager.StartHealthCheckTimers. rewrite Hx, Hskip.
    unfold startTimerForWorkflow. rewrite !Hc, !Hrestart. simpl.
    destruct (0 <? StartPeriod hc); rewrite ?Hc, ?Hrestart; simpl;
      unfold hcUnitNameWithType; simpl;
      rewrite ?string_append_assoc; reflexivity. }
  rewrite Hcreated, Hstarted.
  split; [left; reflexivity|]. split; [left; reflexivity|]. split.
  - destruct (StartPeriod hc =? 0) eqn:E0.
    + apply Z.eqb_eq in E0. split; [| intros N; contradiction].
      intros [H | []]. apply string_append_inj_l in H. discriminate H.
    + apply Z.eqb_neq in E0. split; [intros _; exact E0|].
      intros _. right. left. reflexivity.
  - destruct (0 <? StartPeriod hc) eqn:E0.
    + apply Z.ltb_lt in E0. split; [intros _; exact E0|].
      intros _. right. left. reflexivity.
    + apply Z.ltb_ge in E0. split; [| lia].
      intros [H | []]. injection H as H.
      apply string_append_inj_l in H. discriminate H.
Qed.

(** X19.  Timers are set up for runnable configurations only: when
    [CreateHealthCheckTimers] or [StartHealthCheckTimers] makes any call
    to systemd, the container has a health check whose [Test] is not
    empty and does not start with "NONE" and whose [Interval] is not 0;
    for such a [Test], [prepareProcessSpec] does not panic on the index
    of its first element. *)
Theorem timers_only_for_runnable_configs (host : Host)
        (calls : list SystemdCall) :
  snd (CreateHealthCheckTimers host calls) <> calls
  \/ snd (StartHealthCheckTimers host calls) <> calls ->
  exists hc,
    extractHealthcheck host = Some hc /\
    Test hc <> [] /\
    hd EmptyString (Test hc) <> "NONE" /\
    Interval hc <> 0 /\
    forall (TestNone CmdNone Cmd CmdShell : string)
           (Trim : string -> string) (tick : Tick),
      prepareProcessSpec TestNone CmdNone Cmd CmdShell Trim tick hc
      <> Panic "index out of range [0] with length 0".
Proof.
  intros Hcalls.
  assert (H : exists hc,
             extractHealthcheck host = Some hc /\
             shouldSkipHealthCheckSystemd host (Some hc) = false).
  { destruct Hcalls as [H | H]; revert H;
      unfold Manager.CreateHealthCheckTimers, Manager.StartHealthCheckTimers;
      destruct (extractHealthcheck host) as [hc|];
      try (intros N; exfalso; apply N; reflexivity);
      destruct (shouldSkipHealthCheckSystemd host (Some hc)) eqn:E;
      try (intros N; exfalso; apply N; reflexivity);
      intros _; eauto. }
  destruct H as (hc & Hx & Hskip). exists hc. split; [exact Hx|].
  unfold shouldSkipHealthCheckSystemd in Hskip.
  destruct (negb (systemdAvailable host) || _); [discriminate|].
  destruct ((List.length (Test hc) =? 0)%nat) eqn:E1; [discriminate|].
  destruct ((hd EmptyString (Test hc) =? "NONE")%string) eqn:E2;
    [discriminate|].
  destruct (Interval hc =? 0) eqn:E3; [discriminate|].
  apply Nat.eqb_neq in E1. apply String.eqb_neq in E2. apply Z.eqb_neq in E3.
  assert (Hne : Test hc <> []).
  { intros N. rewrite N in E1. apply E1. reflexivity. }
  repeat split; try assumption.
  intros TestNone CmdNone Cmd CmdShell Trim tick.
  unfold prepareProcessSpec.
  destruct (Test hc) as [|tag rest]; [contradiction|].
  repeat match goal with
         | |- context [if ?b then _ else _] => destruct b
         end;
    try discriminate;
    destruct (specAnswer tick) as [e | [cp|]]; discriminate.
Qed.

End ManagerFacts.

(** ** The properties on concrete runs *)

(** Start-period workflow, start period of ten seconds, probe started
    twenty seconds after creation and exiting with 0: nothing is written
    and the status stays Starting. *)
Lemma exit_zero_after_start_period_stays_starting :
  let tick := quietTick (seconds 20) (ExitFirst 0 "ok") in
  let result := resultAt (seconds 20) 0 in
  let w' := snd (updateHealthStatus 5 tick (sampleConfig 3) result
                                    "start-period" freshWorld) in
  ExitCode result = 0 /\
  healthStateLabel w' = None /\
  currentHealthOf w' = {| Status := Starting; FailingStreak := 0 |} /\
  Status (currentHealthOf w') <> Healthy.
Proof.
  vm_compute. repeat split; discriminate.
Qed.

Lemma exit_zero_state_witness :
  healthStateLabel
    (snd (updateHealthStatus 5 (quietTick (seconds 5) (ExitFirst 0 "ok"))
                             (sampleConfig 3) (resultAt (seconds 5) 0)
                             "start-period" freshWorld))
  = Some {| Status := Healthy; FailingStreak := 0 |}.
Proof.
  destruct (exit_zero_state 5 (quietTick (seconds 5) (ExitFirst 0 "ok"))
                            (sampleConfig 3) (resultAt (seconds 5) 0)
                            "start-period" freshWorld 0)
    as (_ & H & _).
  - repeat split; reflexivity.
  - reflexivity.
  - apply H; [reflexivity | vm_compute; discriminate | reflexivity].
Defined.

(** Health-interval workflow, three retries, probes started after the
    start period: a success and then a failure give [{Healthy, 0}] and
    then [{Healthy, 1}], a Healthy state with a failing streak. *)
Lemma healthy_state_with_failing_streak :
  let states :=
    map currentHealthOf
        (runUpdates 5 (sampleConfig 3) "health-interval"
                    [stepAt 20 0; stepAt 50 1] freshWorld) in
  states = [ {| Status := Healthy; FailingStreak := 0 |};
             {| Status := Healthy; FailingStreak := 1 |} ] /\
  healthyHasNoStreak {| Status := Healthy; FailingStreak := 0 |} /\
  ~ healthyHasNoStreak {| Status := Healthy; FailingStreak := 1 |}.
Proof.
  split; [reflexivity|]. split.
  - intros _. reflexivity.
  - intros H. specialize (H eq_refl). discriminate H.
Qed.

Lemma healthy_streak_after_update_witness :
  healthyHasNoStreak
    (currentHealthOf (worldWith {| Status := Healthy; FailingStreak := 0 |}))
  /\
  currentHealthOf
    (snd (updateHealthStatus 5 (fst (stepAt 20 0)) (sampleConfig 3)
                             (snd (stepAt 20 0)) "health-interval"
                             (worldWith {| Status := Healthy;
                                           FailingStreak := 0 |})))
  = {| Status := Healthy; FailingStreak := 0 |}
  /\
  currentHealthOf
    (snd (updateHealthStatus 5 (fst (stepAt 50 1)) (sampleConfig 3)
                             (snd (stepAt 50 1)) "health-interval"
                             (worldWith {| Status := Healthy;
                                           FailingStreak := 0 |})))
  = {| Status := Healthy; FailingStreak := 1 |}.
Proof.
  assert (Hinv : healthyHasNoStreak
                   (currentHealthOf
                      (worldWith {| Status := Healthy; FailingStreak := 0 |}))).
  { intros _. reflexivity. }
  split; [exact Hinv|]. split.
  - destruct (healthy_streak_after_update 5 (fst (stepAt 20 0))
                (sampleConfig 3) (snd (stepAt 20 0)) "health-interval"
                (worldWith {| Status := Healthy; FailingStreak := 0 |}) Hinv)
      as [H | (_ & N & _)].
    + reflexivity.
    + exfalso. apply N. reflexivity.
  - destruct (healthy_streak_after_update 5 (fst (stepAt 50 1))
                (sampleConfig 3) (snd (stepAt 50 1)) "health-interval"
                (worldWith {| Status := Healthy; FailingStreak := 0 |}) Hinv)
      as [H | (_ & _ & _ & _ & _ & E)].
    + vm_compute in H. specialize (H eq_refl). discriminate H.
    + exact E.
Defined.

Lemma three_failures_flip_witness :
  map currentHealthOf
      (freshWorld
         :: runUpdates 5 (sampleConfig 3) "health-interval"
                       [stepAt 20 1; stepAt 50 137; stepAt 80 (-1)]
                       freshWorld)
  = [ {| Status := Starting; FailingStreak := 0 |};
      {| Status := Starting; FailingStreak := 1 |};
      {| Status := Starting; FailingStreak := 2 |};
      {| Status := Unhealthy; FailingStreak := 3 |} ].
Proof.
  apply (three_failures_flip 5 (sampleConfig 3)
           (stepAt 20 1) (stepAt 50 137) (stepAt 80 (-1)) freshWorld).
  - reflexivity.
  - reflexivity.
  - exists 0. repeat split; vm_compute; discriminate.
  - exists 0. repeat split; vm_compute; discriminate.
  - exists 0. repeat split; vm_compute; discriminate.
Defined.



Lemma timeout_is_failed_result_witness :
  fst (probeHealthCheck printTwoSeconds
                        (quietTick (seconds 20) (TimeoutFirst "partial"))
                        (sampleConfig 3) sampleProcess freshWorld)
  = inr {| Start := zeroTime;
           End_ := seconds 20 + 1;
           ExitCode := -1;
           Output := "Health check exceeded timeout (2s): partial" |}.
Proof.
  destruct (timeout_is_failed_result
              tagTestNone tagCmdNone tagCmd tagCmdShell asciiTrimSpace
              printTwoSeconds 5
              (quietTick (seconds 20) (TimeoutFirst "partial"))
              (sampleConfig 3) sampleProcess "health-interval" freshWorld
              "partial")
    as (H & _).
  - reflexivity.
  - exact H.
Defined.

(** Start-period workflow, start period of ten seconds, probe attempted
    twenty seconds after creation, every collaborator but [task.Exec]
    succeeding: the error is returned and nothing is recorded. *)
Lemma infrastructure_error_not_recorded_after_start_period :
  ExecuteHealthCheck tagTestNone tagCmdNone tagCmd tagCmdShell asciiTrimSpace
                     printTwoSeconds 5
                     (quietTick (seconds 20)
                                (ExecFails (ErrorNew "container is not running")))
                     (sampleConfig 3) "start-period" freshWorld
  = (Err (ErrorWrap "health check probe failed: "
            (ErrorWrap "exec error: " (ErrorNew "container is not running"))),
     {| healthStateLabel := None;
        healthLog := [];
        processEvents := [];
        startPeriodTimerRemovals := 1 |}).
Proof.
  reflexivity.
Qed.

Lemma infrastructure_error_recorded_and_returned_witness :
  ExecuteHealthCheck tagTestNone tagCmdNone tagCmd tagCmdShell asciiTrimSpace
                     printTwoSeconds 5
                     (quietTick (seconds 20)
                                (ExecFails (ErrorNew "container is not running")))
                     (sampleConfig 3) "health-interval" freshWorld
  = (Err (ErrorWrap "health check probe failed: "
            (ErrorWrap "exec error: " (ErrorNew "container is not running"))),
     {| healthStateLabel := Some {| Status := Starting; FailingStreak := 1 |};
        healthLog := [ {| Start := seconds 20;
                          End_ := seconds 20 + 1;
                          ExitCode := -1;
                          Output := "exec error: container is not running" |} ];
        processEvents := [];
        startPeriodTimerRemovals := 0 |}).
Proof.
  destruct (infrastructure_error_recorded_and_returned
              tagTestNone tagCmdNone tagCmd tagCmdShell asciiTrimSpace
              printTwoSeconds 5
              (quietTick (seconds 20)
                         (ExecFails (ErrorNew "container is not running")))
              (sampleConfig 3) "health-interval" freshWorld
              {| Args := ["/bin/sh"; "-c"; "curl -f http://localhost/"];
                 Env := Env sampleProcess;
                 ProcessUser := ProcessUser sampleProcess;
                 Cwd := Cwd sampleProcess |}
              (ErrorWrap "exec error: " (ErrorNew "container is not running"))
              0)
    as (H1 & _ & H3 & _).
  - reflexivity.
  - reflexivity.
  - apply injective_projections; [exact H1 | rewrite H3; reflexivity].
Defined.

Lemma unknown_workflow_no_mutation_witness :
  updateHealthStatus 5 (fst (stepAt 20 1)) (sampleConfig 3)
                     (snd (stepAt 20 1)) "health" freshWorld
  = (Some (ErrorNew "unknown workflow type: health"), freshWorld).
Proof.
  destruct (unknown_workflow_no_mutation 5 (fst (stepAt 20 1))
              (sampleConfig 3) (snd (stepAt 20 1)) "health" freshWorld)
    as (_ & H).
  - discriminate.
  - discriminate.
  - apply H; [reflexivity | exists 0; reflexivity].
Defined.

Lemma shell_string_resolution_witness :
  let tick := quietTick (seconds 20) (ExitFirst 0 "ok") in
  let hc := withTest (sampleConfig 3) ["CMD-SHELL"; "  "] in
  prepareProcessSpec tagTestNone tagCmdNone tagCmd tagCmdShell
                     asciiTrimSpace tick hc
  = Err (ErrorNew "no health check command specified")
  /\
  ExecuteHealthCheck tagTestNone tagCmdNone tagCmd tagCmdShell asciiTrimSpace
                     printTwoSeconds 5 tick hc "health-interval" freshWorld
  = (Err (ErrorNew "no health check command specified"), freshWorld).
Proof.
  intros tick hc.
  destruct (shell_string_resolution
              tagTestNone tagCmdNone tagCmd tagCmdShell asciiTrimSpace
              printTwoSeconds 5 tick hc ["  "])
    as (H & _).
  - discriminate.
  - discriminate.
  - discriminate.
  - reflexivity.
  - destruct H as (H1 & H2); [right; reflexivity|].
    split; [exact H1 | apply H2].
Defined.

Lemma none_tag_is_noop_witness :
  ExecuteHealthCheck tagTestNone tagCmdNone tagCmd tagCmdShell asciiTrimSpace
                     printTwoSeconds 5
                     (quietTick (seconds 20) (ExitFirst 1 "never run"))
                     (withTest (sampleConfig 3) ["NONE"])
                     "health-interval" freshWorld
  = (Ok tt, freshWorld).
Proof.
  apply (none_tag_is_noop
           tagTestNone tagCmdNone tagCmd tagCmdShell asciiTrimSpace
           printTwoSeconds 5
           (quietTick (seconds 20) (ExitFirst 1 "never run"))
           (withTest (sampleConfig 3) ["NONE"])
           "health-interval" freshWorld "NONE" []).
  - reflexivity.
  - right. reflexivity.
Defined.

Lemma persistence_error_discarded_witness :
  let tick := quietTick (seconds 20)
                        (StartFails (ErrorNew "no such process")) in
  let failing := withPersistence tick None (inr 0)
                                 (Some (ErrorNew "label store unavailable"))
                                 None in
  fst (ExecuteHealthCheck
         tagTestNone tagCmdNone tagCmd tagCmdShell asciiTrimSpace
         printTwoSeconds 5 failing (sampleConfig 3) "health-interval"
         freshWorld)
  = Err (ErrorWrap "health check probe failed: "
           (ErrorWrap "start error: " (ErrorNew "no such process"))).
Proof.
  intros tick failing.
  apply (persistence_error_discarded
           tagTestNone tagCmdNone tagCmd tagCmdShell asciiTrimSpace
           printTwoSeconds 5 tick (sampleConfig 3) "health-interval"
           freshWorld
           {| Args := ["/bin/sh"; "-c"; "curl -f http://localhost/"];
              Env := Env sampleProcess;
              ProcessUser := ProcessUser sampleProcess;
              Cwd := Cwd sampleProcess |}
           (ErrorWrap "start error: " (ErrorNew "no such process"))).
  - reflexivity.
  - reflexivity.
Defined.

(** ** The further properties on concrete runs *)

Lemma starting_never_reentered_witness :
  Status (currentHealthOf
            (snd (updateHealthStatus 5 (fst (stepAt 20 1)) (sampleConfig 3)
                                     (snd (stepAt 20 1)) "health-interval"
                                     (worldWith {| Status := Healthy;
                                                   FailingStreak := 0 |}))))
  <> Starting.
Proof.
  apply (starting_never_reentered 5 (fst (stepAt 20 1)) (sampleConfig 3)
           (snd (stepAt 20 1)) "health-interval"
           (worldWith {| Status := Healthy; FailingStreak := 0 |})).
  vm_compute. discriminate.
Defined.

Lemma unhealthy_until_success_witness :
  Status (currentHealthOf
            (snd (updateHealthStatus 5 (fst (stepAt 5 1)) (sampleConfig 3)
                                     (snd (stepAt 5 1)) "start-period"
                                     (worldWith {| Status := Unhealthy;
                                                   FailingStreak := 3 |}))))
  = Unhealthy.
Proof.
  apply (unhealthy_until_success 5 (fst (stepAt 5 1)) (sampleConfig 3)
           (snd (stepAt 5 1)) "start-period"
           (worldWith {| Status := Unhealthy; FailingStreak := 3 |})).
  - reflexivity.
  - vm_compute. discriminate.
Defined.

Lemma consecutive_failures_witness :
  currentHealthOf
    (last (runUpdates 5 (sampleConfig 3) "health-interval"
                      [stepAt 20 1; stepAt 50 2; stepAt 80 1; stepAt 110 7]
                      (worldWith {| Status := Healthy; FailingStreak := 0 |}))
          (worldWith {| Status := Healthy; FailingStreak := 0 |}))
  = {| Status := Unhealthy; FailingStreak := 4 |}.
Proof.
  apply (consecutive_failures 5 (sampleConfig 3)
           [stepAt 20 1; stepAt 50 2; stepAt 80 1; stepAt 110 7]
           (worldWith {| Status := Healthy; FailingStreak := 0 |})).
  - discriminate.
  - repeat (apply Forall_cons;
            [exists 0; repeat split; vm_compute; discriminate|]).
    apply Forall_nil.
  - vm_compute. discriminate.
  - vm_compute. discriminate.
Defined.

Lemma start_period_healthy_is_terminal_witness :
  Forall (fun w' =>
            healthStateLabel w'
            = healthStateLabel (worldWith {| Status := Healthy;
                                             FailingStreak := 0 |}) /\
            healthLog w'
            = healthLog (worldWith {| Status := Healthy;
                                      FailingStreak := 0 |}) /\
            processEvents w'
            = processEvents (worldWith {| Status := Healthy;
                                          FailingStreak := 0 |}))
         (runUpdates 5 (sampleConfig 3) "start-period"
                     [stepAt 2 1; stepAt 4 0; stepAt 20 1]
                     (worldWith {| Status := Healthy; FailingStreak := 0 |})).
Proof.
  apply (start_period_healthy_is_terminal 5 (sampleConfig 3)
           [stepAt 2 1; stepAt 4 0; stepAt 20 1]
           (worldWith {| Status := Healthy; FailingStreak := 0 |})).
  reflexivity.
Defined.

Lemma grace_period_ignores_failures_witness :
  Forall (fun w' => currentHealthOf w' = currentHealthOf freshWorld)
         (runUpdates 5 (sampleConfig 1) "health-interval"
                     [stepAt 1 1; stepAt 4 2; stepAt 9 (-1)] freshWorld).
Proof.
  apply (grace_period_ignores_failures 5 (sampleConfig 1) "health-interval"
           [stepAt 1 1; stepAt 4 2; stepAt 9 (-1)] freshWorld).
  repeat (apply Forall_cons;
          [split;
           [vm_compute; discriminate
           | intros created H; injection H as <-; vm_compute; reflexivity]|]).
  apply Forall_nil.
Defined.

Lemma log_failure_keeps_new_state_witness :
  let tick := withPersistence (fst (stepAt 20 0)) None (inr 0) None
                              (Some (ErrorNew "disk full")) in
  let out := updateHealthStatus 5 tick (sampleConfig 3) (snd (stepAt 20 0))
                                "health-interval" freshWorld in
  fst out = Some (ErrorWrap "failed to write health log: "
                            (ErrorNew "disk full")) /\
  healthLog (snd out) = [] /\
  healthStateLabel (snd out)
  = Some {| Status := Healthy; FailingStreak := 0 |}.
Proof.
  intros tick out.
  destruct (log_failure_keeps_new_state 5 tick (sampleConfig 3)
              (snd (stepAt 20 0)) freshWorld 0 (ErrorNew "disk full"))
    as (A & B & C & _).
  - repeat split; reflexivity.
  - reflexivity.
  - fold out in A, B, C.
    split; [exact A | split; [exact B | rewrite C; reflexivity]].
Defined.

Lemma teardown_precedes_state_write_witness :
  let tick := withPersistence (fst (stepAt 5 0)) None (inr 0)
                              (Some (ErrorNew "label store unavailable"))
                              None in
  updateHealthStatus 5 tick (sampleConfig 3) (snd (stepAt 5 0))
                     "start-period" freshWorld
  = (Some (ErrorWrap "failed to write health state to labels: "
                     (ErrorNew "label store unavailable")),
     {| healthStateLabel := None;
        healthLog := [];
        processEvents := [];
        startPeriodTimerRemovals := 1 |}).
Proof.
  intros tick.
  destruct (teardown_precedes_state_write 5 tick (sampleConfig 3)
              (snd (stepAt 5 0)) freshWorld 0
              (ErrorNew "label store unavailable"))
    as (A & _).
  - reflexivity.
  - reflexivity.
  - reflexivity.
  - vm_compute. discriminate.
  - reflexivity.
  - reflexivity.
  - exact A.
Defined.

Lemma prepared_spec_well_formed_witness :
  let p := {| Args := ["/bin/sh"; "-c"; "curl -f http://localhost/"];
              Env := Env sampleProcess;
              ProcessUser := ProcessUser sampleProcess;
              Cwd := Cwd sampleProcess |} in
  Args p <> [] /\ hd EmptyString (Args p) <> EmptyString.
Proof.
  intros p.
  destruct (prepared_spec_well_formed
              tagTestNone tagCmdNone tagCmd tagCmdShell asciiTrimSpace
              (quietTick (seconds 20) (ExitFirst 0 "ok")) (sampleConfig 3) p)
    as (A & B & _).
  - reflexivity.
  - split; [exact A | exact B].
Defined.

Lemma exec_argv_resolution_witness :
  prepareProcessSpec tagTestNone tagCmdNone tagCmd tagCmdShell asciiTrimSpace
                     (quietTick (seconds 20) (ExitFirst 0 "ok"))
                     (withTest (sampleConfig 3) ["CMD"; "pg_isready"; "-q"])
  = Ok (Some {| Args := ["pg_isready"; "-q"];
                Env := Env sampleProcess;
                ProcessUser := ProcessUser sampleProcess;
                Cwd := Cwd sampleProcess |}).
Proof.
  destruct (exec_argv_resolution
              tagTestNone tagCmdNone tagCmd tagCmdShell asciiTrimSpace
              (quietTick (seconds 20) (ExitFirst 0 "ok"))
              (withTest (sampleConfig 3) ["CMD"; "pg_isready"; "-q"])
              ["pg_isready"; "-q"])
    as (_ & H).
  - discriminate.
  - discriminate.
  - reflexivity.
  - apply H; discriminate.
Defined.

Lemma implicit_argv_resolution_witness :
  prepareProcessSpec tagTestNone tagCmdNone tagCmd tagCmdShell asciiTrimSpace
                     (quietTick (seconds 20) (ExitFirst 0 "ok"))
                     (withTest (sampleConfig 3) ["pg_isready"; "-q"])
  = Ok (Some {| Args := ["pg_isready"; "-q"];
                Env := Env sampleProcess;
                ProcessUser := ProcessUser sampleProcess;
                Cwd := Cwd sampleProcess |}).
Proof.
  apply (implicit_argv_resolution
           tagTestNone tagCmdNone tagCmd tagCmdShell asciiTrimSpace
           (quietTick (seconds 20) (ExitFirst 0 "ok"))
           (withTest (sampleConfig 3) ["pg_isready"; "-q"])
           "pg_isready" ["-q"]).
  - discriminate.
  - discriminate.
  - discriminate.
  - discriminate.
  - discriminate.
  - reflexivity.
Defined.

Lemma success_means_recorded_witness :
  exists r older,
    fst (probeHealthCheck printTwoSeconds
                          (quietTick (seconds 20) (ExitFirst 3 "refused"))
                          (sampleConfig 3)
                          {| Args := ["/bin/sh"; "-c";
                                      "curl -f http://localhost/"];
                             Env := Env sampleProcess;
                             ProcessUser := ProcessUser sampleProcess;
                             Cwd := Cwd sampleProcess |}
                          freshWorld) = inr r /\
    healthLog
      (snd (ExecuteHealthCheck
              tagTestNone tagCmdNone tagCmd tagCmdShell asciiTrimSpace
              printTwoSeconds 5
              (quietTick (seconds 20) (ExitFirst 3 "refused"))
              (sampleConfig 3) "health-interval" freshWorld))
    = (older ++ [ {| Start := seconds 20; End_ := End_ r;
                     ExitCode := ExitCode r; Output := Output r |} ])%list.
Proof.
  destruct (success_means_recorded
              tagTestNone tagCmdNone tagCmd tagCmdShell asciiTrimSpace
              printTwoSeconds 5
              (quietTick (seconds 20) (ExitFirst 3 "refused"))
              (sampleConfig 3) freshWorld
              {| Args := ["/bin/sh"; "-c"; "curl -f http://localhost/"];
                 Env := Env sampleProcess;
                 ProcessUser := ProcessUser sampleProcess;
                 Cwd := Cwd sampleProcess |})
    as (r & older & A & B & _).
  - lia.
  - reflexivity.
  - reflexivity.
  - exists r, older. split; [exact A | exact B].
Defined.

Lemma start_period_probe_runs_when_healthy_witness :
  let w := worldWith {| Status := Healthy; FailingStreak := 0 |} in
  let out := ExecuteHealthCheck
               tagTestNone tagCmdNone tagCmd tagCmdShell asciiTrimSpace
               printTwoSeconds 5
               (quietTick (seconds 5) (ExitFirst 1 "refused"))
               (sampleConfig 3) "start-period" w in
  fst out = Ok tt /\
  healthStateLabel (snd out) = healthStateLabel w /\
  healthLog (snd out) = [] /\
  processEvents (snd out) <> [].
Proof.
  intros w out.
  destruct (start_period_probe_runs_when_healthy
              tagTestNone tagCmdNone tagCmd tagCmdShell asciiTrimSpace
              printTwoSeconds 5
              (quietTick (seconds 5) (ExitFirst 1 "refused"))
              (sampleConfig 3) w
              {| Args := ["/bin/sh"; "-c"; "curl -f http://localhost/"];
                 Env := Env sampleProcess;
                 ProcessUser := ProcessUser sampleProcess;
                 Cwd := Cwd sampleProcess |}
              {| Start := zeroTime; End_ := seconds 5 + 1;
                 ExitCode := 1; Output := "refused" |}
              0)
    as (A & B & C & D).
  - reflexivity.
  - reflexivity.
  - reflexivity.
  - reflexivity.
  - reflexivity.
  - fold out in A, B, C, D. rewrite A at 1.
    repeat split; assumption.
Defined.

Lemma created_timers_are_removed_witness :
  In (Manager.StopUnit "c1-start.timer" "ignore-dependencies")
     (snd (Manager.RemoveAllHealthCheckTimers
             (Manager.quietHost "c1") "c1" [])).
Proof.
  destruct (created_timers_are_removed
              Manager.sampleFromJSON (5 * 10 ^ 9) asciiTrimSpace
              printTwoSeconds
              (Manager.quietHost "c1") (Manager.quietHost "c1")
              [] "c1-start.timer")
    as (_ & H).
  - reflexivity.
  - reflexivity.
  - discriminate.
  - reflexivity.
  - reflexivity.
  - apply H. vm_compute. right. left. reflexivity.
Defined.

(** A start period of minus one second: the start-period timer is
    created, and its service is not started. *)
Lemma start_period_timer_created_and_started_witness :
  In "c1-start.timer"
     (Manager.timersCreated
        (snd (Manager.CreateHealthCheckTimers
                Manager.sampleFromJSON (5 * 10 ^ 9) asciiTrimSpace
                printTwoSeconds (Manager.quietHost "c1") [])))
  /\
  ~ In (Manager.RestartUnit "c1-start.service" "fail")
       (snd (Manager.StartHealthCheckTimers
               Manager.sampleFromJSON (Manager.quietHost "c1") [])).
Proof.
  destruct (start_period_timer_created_and_started
              Manager.sampleFromJSON (5 * 10 ^ 9) asciiTrimSpace
              printTwoSeconds (Manager.quietHost "c1")
              (withStartPeriod (sampleConfig 3) (- (10 ^ 9))))
    as (_ & _ & A & B).
  - reflexivity.
  - reflexivity.
  - reflexivity.
  - reflexivity.
  - reflexivity.
  - split.
    + apply A. vm_compute. discriminate.
    + intros H. apply B in H. vm_compute in H. discriminate H.
Defined.

Lemma timers_only_for_runnable_configs_witness :
  exists hc,
    Manager.extractHealthcheck Manager.sampleFromJSON (Manager.quietHost "c1")
    = Some hc /\
    Test hc <> [].
Proof.
  destruct (timers_only_for_runnable_configs
              Manager.sampleFromJSON (5 * 10 ^ 9) asciiTrimSpace
              printTwoSeconds (Manager.quietHost "c1") [])
    as (hc & A & B & _).
  - left. vm_compute. discriminate.
  - exists hc. split; [exact A | exact B].
Defined.
